(** * Storage abstraction layer of the document management service

    A shallow embedding of [backend/src/config/base.config.ts],
    [backend/src/entity/Document.ts], [backend/src/services/s3.service.ts]
    and [backend/src/services/document.service.ts], followed by the
    properties of the storage layer.

    Conventions of the embedding:
    - a JavaScript string is the list of its UTF-16 code units;
    - a [Buffer] is a list of bytes;
    - an [async] method is a computation in the monad [M], which threads
      the state of the outside world (local files, the S3 bucket, the Mongo
      collection, the clock, the random source) and may throw a JavaScript
      [Error];
    - every call that leaves the process (file system, S3 client, Mongo
      repository) is recorded in a trace, so that "no read is performed"
      is a statement about the trace. *)

From Stdlib Require Import Ascii String.
From stdpp Require Import base option list gmap strings pretty sorting.

Open Scope N_scope.

(** ** JavaScript values *)

(** A string is a sequence of UTF-16 code units. *)
Abbreviation JSString := (list N).

(** The code units of an ASCII literal. *)
Definition js (s : string) : JSString :=
  map N_of_ascii (list_ascii_of_string s).

(** A [Buffer] is a sequence of bytes. *)
Abbreviation Buffer := (list Byte.byte).

(** [Buffer.concat(chunks)] *)
Definition Buffer_concat (chunks : list Buffer) : Buffer := concat chunks.

(** [s.substring(start, end)]: the arguments are swapped when
    [start > end] and clamped to the length of [s]. *)
Definition substring (s : JSString) (start end_ : nat) : JSString :=
  let a := Nat.min start end_ in
  let b := Nat.max start end_ in
  take (b - a) (drop a s).

(** Template literal interpolation of a non-negative integer below
    1e21, as every time stamp is: its decimal digits. *)
Definition Number_toString (n : N) : JSString := js (pretty n).

(** Truthiness of an optional string: [undefined] and the empty string
    are falsy. *)
Definition truthy (o : option JSString) : bool :=
  match o with
  | Some (_ :: _) => true
  | _ => false
  end.

(** Truthiness of an optional object ([Buffer], entity): only
    [undefined]/[null] is falsy; an empty [Buffer] is truthy. *)
Definition defined {A} (o : option A) : bool :=
  match o with
  | Some _ => true
  | None => false
  end.

(** A thrown [Error] carries its message. *)
Inductive JSError : Type :=
  | Error (message : JSString).

Definition message (e : JSError) : JSString :=
  match e with Error m => m end.

(** ** ObjectId

    The identifier of the Mongo driver: twelve bytes, printed as
    twenty-four lower-case hexadecimal digits. [new ObjectId(s)] throws
    unless [s] is such a string of hexadecimal digits (either case). *)
Abbreviation ObjectId := (list Byte.byte).

Definition hex_digit (d : N) : N :=
  if d <? 10 then 48 + d else 87 + d.

Definition hex_value (c : N) : option N :=
  if (48 <=? c) && (c <=? 57) then Some (c - 48)
  else if (97 <=? c) && (c <=? 102) then Some (c - 87)
  else if (65 <=? c) && (c <=? 70) then Some (c - 55)
  else None.

Definition hex_of_byte (b : Byte.byte) : JSString :=
  let n := Byte.to_N b in
  [hex_digit (n / 16); hex_digit (n mod 16)].

Definition ObjectId_toString (o : ObjectId) : JSString :=
  concat (map hex_of_byte o).

Fixpoint bytes_of_hex (s : JSString) : option (list Byte.byte) :=
  match s with
  | [] => Some []
  | [_] => None
  | h :: l :: rest =>
      match hex_value h, hex_value l with
      | Some x, Some y =>
          match Byte.of_N (16 * x + y), bytes_of_hex rest with
          | Some b, Some bs => Some (b :: bs)
          | _, _ => None
          end
      | _, _ => None
      end
  end.

(** [new ObjectId(id)]: [None] stands for the exception thrown on a
    malformed string. *)
Definition ObjectId_new (id : JSString) : option ObjectId :=
  if (length id =? 24)%nat then bytes_of_hex id else None.

(** The twelve bytes, most significant first, of a driver-side counter. *)
Fixpoint bytes_be (len : nat) (n : N) : list Byte.byte :=
  match len with
  | O => []
  | S k =>
      bytes_be k (n / 256) ++
      [default Byte.x00 (Byte.of_N (n mod 256))]
  end.

Definition ObjectId_generate (counter : N) : ObjectId := bytes_be 12 counter.

Global Instance byte_eq_dec : EqDecision Byte.byte.
Proof.
  intros a b. destruct (Byte.eqb a b) eqn:E.
  - left. by apply Byte.byte_dec_bl.
  - right. intros ->. by rewrite Byte.byte_dec_lb in E.
Defined.

(** ** The entity ([entity/Document.ts])

    Every column is [undefined] on a fresh [new Document()]; [id],
    [createdAt] and [updatedAt] are assigned by the repository on save. *)
Record Document : Type := mkDocument {
  id : option ObjectId;
  name : option JSString;
  path : option JSString;
  buffer : option Buffer;
  s3Key : option JSString;
  createdAt : option N;
  updatedAt : option N
}.

Definition new_Document : Document :=
  mkDocument None None None None None None None.

Definition set_id (v : ObjectId) (d : Document) : Document :=
  mkDocument (Some v) (name d) (path d) (buffer d) (s3Key d)
             (createdAt d) (updatedAt d).
Definition set_name (v : JSString) (d : Document) : Document :=
  mkDocument (id d) (Some v) (path d) (buffer d) (s3Key d)
             (createdAt d) (updatedAt d).
Definition set_path (v : JSString) (d : Document) : Document :=
  mkDocument (id d) (name d) (Some v) (buffer d) (s3Key d)
             (createdAt d) (updatedAt d).
Definition set_buffer (v : Buffer) (d : Document) : Document :=
  mkDocument (id d) (name d) (path d) (Some v) (s3Key d)
             (createdAt d) (updatedAt d).
Definition set_s3Key (v : JSString) (d : Document) : Document :=
  mkDocument (id d) (name d) (path d) (buffer d) (Some v)
             (createdAt d) (updatedAt d).
Definition set_createdAt (v : N) (d : Document) : Document :=
  mkDocument (id d) (name d) (path d) (buffer d) (s3Key d)
             (Some v) (updatedAt d).
Definition set_updatedAt (v : N) (d : Document) : Document :=
  mkDocument (id d) (name d) (path d) (buffer d) (s3Key d)
             (createdAt d) (Some v).

(** ** Configuration ([config/base.config.ts]) *)
Record BaseConfig : Type := mkBaseConfig {
  STORAGE_TYPE : JSString;
  S3_BUCKET_NAME : JSString
}.

(** [process.env.X || fallback] *)
Definition env_or (v : option JSString) (fallback : JSString) : JSString :=
  if truthy v then default fallback v else fallback.

Definition BaseConfig_of_env (env : JSString → option JSString) : BaseConfig :=
  {| STORAGE_TYPE := env_or (env (js "STORAGE_TYPE")) (js "filesystem");
     S3_BUCKET_NAME := env_or (env (js "S3_BUCKET_NAME")) [] |}.

Definition isMongoDBStorage (cfg : BaseConfig) : bool :=
  bool_decide (STORAGE_TYPE cfg = js "mongodb").
Definition isFileSystemStorage (cfg : BaseConfig) : bool :=
  bool_decide (STORAGE_TYPE cfg = js "filesystem").
Definition isS3Storage (cfg : BaseConfig) : bool :=
  bool_decide (STORAGE_TYPE cfg = js "s3").

(** The three storage strategies, and the one a configuration selects:
    the order of the tests is the order of the branches in the service,
    so that every value other than ["s3"] and ["mongodb"] selects the
    file system. *)
Inductive Backend : Type := Filesystem | EmbeddedBlob | ObjectStorage.

Global Instance Backend_eq_dec : EqDecision Backend.
Proof. solve_decision. Defined.

Definition activeBackend (cfg : BaseConfig) : Backend :=
  if isS3Storage cfg then ObjectStorage
  else if isMongoDBStorage cfg then EmbeddedBlob
  else Filesystem.

(** ** The outside world *)

(** Commands of the S3 client. *)
Inductive S3Command : Type :=
  | PutObjectCommand (Bucket Key : JSString) (Body : Buffer)
                     (ContentType : option JSString)
  | GetObjectCommand (Bucket Key : JSString)
  | DeleteObjectCommand (Bucket Key : JSString).

(** Replies of the S3 client; the body of a [GetObject] reply is a
    stream, here the list of the chunks it emits. *)
Inductive S3Output : Type :=
  | PutObjectOutput
  | GetObjectOutput (Body : option (list Buffer))
  | DeleteObjectOutput.

Definition Body (r : S3Output) : option (list Buffer) :=
  match r with
  | GetObjectOutput b => b
  | _ => None
  end.

Inductive Direction : Type := ASC | DESC.

(** [{ order: { createdAt: ... } }] *)
Record FindManyOptions : Type := mkFindManyOptions {
  order_createdAt : option Direction
}.

(** Calls on the Mongo repository of [Document]. *)
Inductive RepoCommand : Type :=
  | RepoSave (d : Document)
  | RepoFindOneBy (_id : ObjectId)
  | RepoFind (options : FindManyOptions)
  | RepoDelete (criteria : option ObjectId).

(** What the process asked of the outside, in order. *)
Inductive IOEvent : Type :=
  | FsReadFile (p : JSString)
  | FsUnlink (p : JSString)
  | S3Send (c : S3Command)
  | RepoCall (c : RepoCommand).

(** The state of everything outside the service. The two [_fault] fields
    say which remote calls are rejected, and with which message: they
    stand for network and server failures. *)
Record World : Type := mkWorld {
  files : gmap JSString Buffer;
  bucket : gmap (JSString * JSString) Buffer;
  s3_fault : S3Command → option JSString;
  documents : list Document;
  repo_fault : RepoCommand → option JSString;
  oid_counter : N;
  now : N;
  random36 : nat → JSString;
  random_draws : nat;
  trace : list IOEvent
}.

Definition log (e : IOEvent) (w : World) : World :=
  mkWorld (files w) (bucket w) (s3_fault w) (documents w) (repo_fault w)
          (oid_counter w) (now w) (random36 w) (random_draws w)
          (trace w ++ [e]).
Definition set_files (f : gmap JSString Buffer) (w : World) : World :=
  mkWorld f (bucket w) (s3_fault w) (documents w) (repo_fault w)
          (oid_counter w) (now w) (random36 w) (random_draws w) (trace w).
Definition set_bucket (b : gmap (JSString * JSString) Buffer) (w : World)
  : World :=
  mkWorld (files w) b (s3_fault w) (documents w) (repo_fault w)
          (oid_counter w) (now w) (random36 w) (random_draws w) (trace w).
Definition set_documents (ds : list Document) (w : World) : World :=
  mkWorld (files w) (bucket w) (s3_fault w) ds (repo_fault w)
          (oid_counter w) (now w) (random36 w) (random_draws w) (trace w).
Definition next_oid (w : World) : World :=
  mkWorld (files w) (bucket w) (s3_fault w) (documents w) (repo_fault w)
          (oid_counter w + 1) (now w) (random36 w) (random_draws w) (trace w).
Definition next_random (w : World) : World :=
  mkWorld (files w) (bucket w) (s3_fault w) (documents w) (repo_fault w)
          (oid_counter w) (now w) (random36 w) (S (random_draws w)) (trace w).

(** ** The monad of asynchronous computations *)
Inductive Completion (A : Type) : Type :=
  | Normal (a : A)
  | Throw (e : JSError).
Arguments Normal {A} a.
Arguments Throw {A} e.

Definition M (A : Type) : Type := World → Completion A * World.

Definition ret {A} (a : A) : M A := λ w, (Normal a, w).
Definition throw {A} (e : JSError) : M A := λ w, (Throw e, w).
Definition bind {A B} (m : M A) (k : A → M B) : M B :=
  λ w, match m w with
       | (Normal a, w') => k a w'
       | (Throw e, w') => (Throw e, w')
       end.
(** [try { m } catch (error) { h error }]: what [m] did to the world
    before it threw stays done. *)
Definition try_catch {A} (m : M A) (h : JSError → M A) : M A :=
  λ w, match m w with
       | (Normal a, w') => (Normal a, w')
       | (Throw e, w') => h e w'
       end.

Notation "'let!' x ':=' m 'in' k" := (bind m (λ x, k))
  (at level 10, x pattern, m at level 100, k at level 200).

(** ** Primitives of the platform *)

(** [Date.now()] *)
Definition Date_now : M N := λ w, (Normal (now w), w).

(** [Math.random().toString(36)]: the next string of the random source,
    such as ["0.4fzyo82mvyr"]. *)
Definition Math_random_toString36 : M JSString :=
  λ w, (Normal (random36 w (random_draws w)), next_random w).

Definition ENOENT (syscall : string) (p : JSString) : JSError :=
  Error (js "ENOENT: no such file or directory, " ++ js syscall ++
         js " '" ++ p ++ js "'").

(** [fs.readFile(path)] *)
Definition fs_readFile (p : JSString) : M Buffer :=
  λ w, match files w !! p with
       | Some b => (Normal b, log (FsReadFile p) w)
       | None => (Throw (ENOENT "open" p), log (FsReadFile p) w)
       end.

(** [fs.unlink(path)] *)
Definition fs_unlink (p : JSString) : M unit :=
  λ w, match files w !! p with
       | Some _ =>
           (Normal (), log (FsUnlink p) (set_files (delete p (files w)) w))
       | None => (Throw (ENOENT "unlink" p), log (FsUnlink p) w)
       end.

(** The chunks in which a stream delivers a body: slices of at most
    [size] bytes. *)
Fixpoint chunks_of (fuel size : nat) (b : Buffer) : list Buffer :=
  match fuel, b with
  | _, [] => []
  | O, _ => [b]
  | S fuel', _ => take size b :: chunks_of fuel' size (drop size b)
  end.

Definition highWaterMark : nat := N.to_nat 65536.

Definition stream_of (b : Buffer) : list Buffer :=
  chunks_of (length b) highWaterMark b.

(** [s3Client.send(command)]: rejected when the remote is faulty on this
    command; otherwise a put stores the body, a get of a missing key is
    rejected, and a delete succeeds whether the key exists or not. *)
Definition s3Client_send (c : S3Command) : M S3Output :=
  λ w, let w1 := log (S3Send c) w in
       match s3_fault w c with
       | Some m => (Throw (Error m), w1)
       | None =>
           match c with
           | PutObjectCommand b k body _ =>
               (Normal PutObjectOutput,
                set_bucket (<[(b, k) := body]> (bucket w)) w1)
           | GetObjectCommand b k =>
               match bucket w !! (b, k) with
               | Some body =>
                   (Normal (GetObjectOutput (Some (stream_of body))), w1)
               | None =>
                   (Throw (Error (js "The specified key does not exist.")),
                    w1)
               end
           | DeleteObjectCommand b k =>
               (Normal DeleteObjectOutput,
                set_bucket (delete (b, k) (bucket w)) w1)
           end
       end.

(** ** The Mongo repository of [Document] (TypeORM) *)

Definition has_id (i : ObjectId) (d : Document) : bool :=
  bool_decide (id d = Some i).

(** Order of dates as Mongo sorts them: a missing date comes first. *)
Definition Date_le (a b : option N) : Prop :=
  match a, b with
  | None, _ => True
  | Some _, None => False
  | Some x, Some y => x ≤ y
  end.

Global Instance Date_le_dec a b : Decision (Date_le a b).
Proof. destruct a, b; simpl; apply _. Defined.

(** [d1] comes no later than [d2] in a listing that is newest first. *)
Definition newest_first (d1 d2 : Document) : Prop :=
  Date_le (createdAt d2) (createdAt d1).
Definition oldest_first (d1 d2 : Document) : Prop :=
  Date_le (createdAt d1) (createdAt d2).

Global Instance newest_first_dec d1 d2 : Decision (newest_first d1 d2).
Proof. unfold newest_first. apply _. Defined.
Global Instance oldest_first_dec d1 d2 : Decision (oldest_first d1 d2).
Proof. unfold oldest_first. apply _. Defined.

Definition apply_order (o : FindManyOptions) (ds : list Document)
  : list Document :=
  match order_createdAt o with
  | None => ds
  | Some ASC => merge_sort oldest_first ds
  | Some DESC => merge_sort newest_first ds
  end.

(** [repo.save(document)]: a document without id is inserted under a new
    id and stamped; one with an id replaces the stored document of that
    id, or is inserted if there is none. *)
Definition repo_save (d : Document) : M Document :=
  λ w, let w1 := log (RepoCall (RepoSave d)) w in
       match repo_fault w (RepoSave d) with
       | Some m => (Throw (Error m), w1)
       | None =>
           match id d with
           | None =>
               let i := ObjectId_generate (oid_counter w) in
               let d' := set_updatedAt (now w)
                           (set_createdAt (now w) (set_id i d)) in
               if existsb (has_id i) (documents w)
               then (Throw (Error (js "E11000 duplicate key error")),
                     next_oid w1)
               else (Normal d',
                     set_documents (documents w ++ [d']) (next_oid w1))
           | Some i =>
               let d' := set_updatedAt (now w) d in
               if existsb (has_id i) (documents w)
               then (Normal d',
                     set_documents
                       (map (λ x, if has_id i x then d' else x)
                            (documents w)) w1)
               else (Normal d',
                     set_documents (documents w ++ [d']) w1)
           end
       end.

(** [repo.findOneBy({ _id })] *)
Definition repo_findOneBy (_id : ObjectId) : M (option Document) :=
  λ w, let w1 := log (RepoCall (RepoFindOneBy _id)) w in
       match repo_fault w (RepoFindOneBy _id) with
       | Some m => (Throw (Error m), w1)
       | None => (Normal (find (λ d, has_id _id d) (documents w)), w1)
       end.

(** [repo.find(options)] *)
Definition repo_find (o : FindManyOptions) : M (list Document) :=
  λ w, let w1 := log (RepoCall (RepoFind o)) w in
       match repo_fault w (RepoFind o) with
       | Some m => (Throw (Error m), w1)
       | None => (Normal (apply_order o (documents w)), w1)
       end.

(** [repo.delete(id)] *)
Definition repo_delete (criteria : option ObjectId) : M unit :=
  λ w, let w1 := log (RepoCall (RepoDelete criteria)) w in
       match repo_fault w (RepoDelete criteria) with
       | Some m => (Throw (Error m), w1)
       | None =>
           match criteria with
           | None =>
               (Throw (Error (js "Empty criteria(s) are not allowed for the delete method.")),
                w1)
           | Some i =>
               (Normal (),
                set_documents
                  (filter (λ d, has_id i d = false) (documents w)) w1)
           end
       end.

(** ** The services

    [toString_utf8] is [Buffer.prototype.toString('utf-8')], the decoder
    of the platform; [cfg] is the static [BaseConfig] of the process. *)
Section Services.
Variable toString_utf8 : Buffer → JSString.
Variable cfg : BaseConfig.

(** [fs.readFile(path, 'utf-8')] *)
Definition fs_readFile_utf8 (p : JSString) : M JSString :=
  let! b := fs_readFile p in
  ret (toString_utf8 b).

(** *** [services/s3.service.ts] *)

Definition bucketName : JSString := S3_BUCKET_NAME cfg.

Definition uploadFile (key : JSString) (body : Buffer)
    (contentType : option JSString) : M JSString :=
  try_catch
    (let command := PutObjectCommand bucketName key body contentType in
     let! _ := s3Client_send command in
     ret key)
    (λ error,
       let errorMessage := message error in
       throw (Error (js "Failed to upload file to S3: " ++ errorMessage))).

Definition downloadFile (key : JSString) : M JSString :=
  try_catch
    (let command := GetObjectCommand bucketName key in
     let! response := s3Client_send command in
     match Body response with
     | None => throw (Error (js "No content in S3 response"))
     | Some chunks => ret (toString_utf8 (Buffer_concat chunks))
     end)
    (λ error,
       let errorMessage := message error in
       throw (Error (js "Failed to download file from S3: " ++
                     errorMessage))).

Definition deleteFile (key : JSString) : M unit :=
  try_catch
    (let command := DeleteObjectCommand bucketName key in
     let! _ := s3Client_send command in
     ret ())
    (λ error,
       let errorMessage := message error in
       throw (Error (js "Failed to delete file from S3: " ++
                     errorMessage))).

(** The character class [[a-zA-Z0-9.-]] on a code unit. *)
Definition allowed (c : N) : bool :=
  ((97 <=? c) && (c <=? 122)) || ((65 <=? c) && (c <=? 90)) ||
  ((48 <=? c) && (c <=? 57)) || (c =? 46) || (c =? 45).

(** [originalName.replace(/[^a-zA-Z0-9.-]/g, '_')] *)
Definition sanitize (originalName : JSString) : JSString :=
  map (λ c, if allowed c then c else 95) originalName.

Definition generateS3Key (originalName : JSString) : M JSString :=
  let! timestamp := Date_now in
  let! r := Math_random_toString36 in
  let randomString := substring r 2 15 in
  let sanitizedName := sanitize originalName in
  ret (js "documents/" ++ Number_toString timestamp ++ js "-" ++
       randomString ++ js "-" ++ sanitizedName).

(** *** [services/document.service.ts] *)

Definition createDocument (name_ : JSString) (path_ : option JSString)
    (fileBuffer : option Buffer) : M Document :=
  let document := new_Document in
  let document := set_name name_ document in
  let! document :=
    if isS3Storage cfg then
      let! buffer_ :=
        match fileBuffer with
        | Some b => ret b
        | None =>
            if truthy path_ then fs_readFile (default [] path_)
            else throw (Error (js "Either path or fileBuffer must be provided for S3 storage"))
        end in
      let! s3Key_ := generateS3Key name_ in
      let! _ := uploadFile s3Key_ buffer_ None in
      ret (set_s3Key s3Key_ document)
    else if isMongoDBStorage cfg then
      match fileBuffer with
      | Some b => ret (set_buffer b document)
      | None =>
          if truthy path_ then
            let! content := fs_readFile (default [] path_) in
            ret (set_buffer content document)
          else throw (Error (js "Either path or fileBuffer must be provided for MongoDB storage"))
      end
    else
      if negb (truthy path_) then
        throw (Error (js "Path must be provided for filesystem storage"))
      else ret (set_path (default [] path_) document)
  in
  repo_save document.

(** [new ObjectId(id)] *)
Definition ObjectId_construct (id_ : JSString) : M ObjectId :=
  match ObjectId_new id_ with
  | Some o => ret o
  | None =>
      throw (Error (js "input must be a 24 character hex string, 12 byte Uint8Array, or an integer"))
  end.

Definition getDocumentById (id_ : JSString) : M (option Document) :=
  try_catch
    (let! objectId := ObjectId_construct id_ in
     let! document := repo_findOneBy objectId in
     ret document)
    (λ error, ret None).

Definition getAllDocuments : M (list Document) :=
  let! documents_ := repo_find (mkFindManyOptions (Some DESC)) in
  ret documents_.

Definition getDocumentContent (id_ : JSString)
    : M (Document * JSString) :=
  let! found := getDocumentById id_ in
  match found with
  | None => throw (Error (js "Document not found"))
  | Some document =>
      try_catch
        (let! content :=
           if isS3Storage cfg && truthy (s3Key document) then
             downloadFile (default [] (s3Key document))
           else if isMongoDBStorage cfg && defined (buffer document) then
             ret (toString_utf8 (default [] (buffer document)))
           else if truthy (path document) then
             fs_readFile_utf8 (default [] (path document))
           else
             throw (Error (js "Document has no valid storage location (s3Key, buffer, or path)"))
         in
         ret (document, content))
        (λ error,
           let errorMessage := message error in
           throw (Error (js "Failed to read document content: " ++
                         errorMessage)))
  end.

Definition deleteDocument (id_ : JSString) : M unit :=
  let! found := getDocumentById id_ in
  match found with
  | None => throw (Error (js "Document not found"))
  | Some document =>
      try_catch
        (let! _ :=
           (if isS3Storage cfg && truthy (s3Key document) then
            deleteFile (default [] (s3Key document))
          else if isMongoDBStorage cfg then
            ret ()
          else if truthy (path document) then
            try_catch
              (fs_unlink (default [] (path document)))
              (λ error, ret ())
          else ret ()) in
         repo_delete (id document))
        (λ error,
           let errorMessage := message error in
           throw (Error (js "Failed to delete document: " ++
                         errorMessage)))
  end.
End Services.

(** ** Vocabulary of the statements *)

(** The key that [generateS3Key] builds in a given world. *)
Definition s3Key_at (w : World) (name_ : JSString) : JSString :=
  js "documents/" ++ Number_toString (now w) ++ js "-" ++
  substring (random36 w (random_draws w)) 2 15 ++ js "-" ++ sanitize name_.

(** The S3 branch of [createDocument] from the point where the bytes to
    store are known. *)
Definition store_in_s3 (cfg : BaseConfig) (name_ : JSString) (b : Buffer)
  : M Document :=
  let! s3Key_ := generateS3Key name_ in
  let! _ := uploadFile cfg s3Key_ b None in
  repo_save (set_s3Key s3Key_ (set_name name_ new_Document)).

(** [getDocumentContent] from the point where the record is loaded. *)
Definition readContent (utf8 : Buffer → JSString) (cfg : BaseConfig)
    (document : Document) : M (Document * JSString) :=
  try_catch
    (let! content :=
       if isS3Storage cfg && truthy (s3Key document) then
         downloadFile utf8 cfg (default [] (s3Key document))
       else if isMongoDBStorage cfg && defined (buffer document) then
         ret (utf8 (default [] (buffer document)))
       else if truthy (path document) then
         fs_readFile_utf8 utf8 (default [] (path document))
       else
         throw (Error (js "Document has no valid storage location (s3Key, buffer, or path)"))
     in
     ret (document, content))
    (λ error,
       throw (Error (js "Failed to read document content: " ++
                     message error))).

(** [deleteDocument] from the point where the record is loaded. *)
Definition deleteLoaded (cfg : BaseConfig) (document : Document) : M unit :=
  try_catch
    (let! _ :=
       (if isS3Storage cfg && truthy (s3Key document) then
          deleteFile cfg (default [] (s3Key document))
        else if isMongoDBStorage cfg then ret ()
        else if truthy (path document) then
          try_catch (fs_unlink (default [] (path document)))
                    (λ error, ret ())
        else ret ()) in
     repo_delete (id document))
    (λ error,
       throw (Error (js "Failed to delete document: " ++ message error))).

(** The content [B] is supplied to [createDocument] in the way the
    active backend requires: a path whose file holds [B], or, except on
    the file system, a buffer [B]. *)
Definition supplies (cfg : BaseConfig) (w : World)
    (path_ : option JSString) (fileBuffer : option Buffer) (B : Buffer)
  : Prop :=
  match activeBackend cfg with
  | Filesystem => ∃ p, path_ = Some p ∧ files w !! p = Some B
  | _ => fileBuffer = Some B ∨
         (fileBuffer = None ∧ ∃ p, path_ = Some p ∧ files w !! p = Some B)
  end.

(** The remote calls that a retrieval makes are not rejected. *)
Definition reads_available (w : World) : Prop :=
  (∀ b k, s3_fault w (GetObjectCommand b k) = None) ∧
  (∀ i, repo_fault w (RepoFindOneBy i) = None).

(** Number of locator fields that are populated. *)
Definition populated (d : Document) : nat :=
  (Nat.b2n (defined (path d)) + Nat.b2n (defined (buffer d)) +
   Nat.b2n (defined (s3Key d)))%nat.

(** The error of a retrieval that finds no usable locator, as it reaches
    the caller. *)
Definition NoValidLocation : JSError :=
  Error (js "Failed to read document content: " ++
         js "Document has no valid storage location (s3Key, buffer, or path)").

(** The record that an id string designates, if any. *)
Definition lookup_record (id_ : JSString) (w : World) : option Document :=
  match ObjectId_new id_ with
  | Some i => find (λ d, has_id i d) (documents w)
  | None => None
  end.

Definition is_read (e : IOEvent) : bool :=
  match e with
  | FsReadFile _ => true
  | _ => false
  end.

(** ** The decoder of the platform

    [buffer.toString('utf-8')]: ill-formed sequences decode to U+FFFD,
    code points above the basic plane to a surrogate pair. *)

Definition utf16 (cp : N) : JSString :=
  if cp <? 65536 then [cp]
  else [55296 + (cp - 65536) / 1024; 56320 + (cp - 65536) mod 1024].

(** Decoder state inside a sequence: the code point so far, the number
    of bytes still needed, and the range allowed for the next byte. *)
Definition utf8_state : Type := option (N * nat * N * N).

(** A byte met outside a sequence: a code unit, the start of a sequence,
    or an error. *)
Definition utf8_lead (b : N) : JSString * utf8_state :=
  if b <=? 127 then ([b], None)
  else if (194 <=? b) && (b <=? 223) then
    ([], Some (N.land b 31, 1%nat, 128, 191))
  else if (224 <=? b) && (b <=? 239) then
    ([], Some (N.land b 15, 2%nat,
               if b =? 224 then 160 else 128,
               if b =? 237 then 159 else 191))
  else if (240 <=? b) && (b <=? 244) then
    ([], Some (N.land b 7, 3%nat,
               if b =? 240 then 144 else 128,
               if b =? 244 then 143 else 191))
  else ([65533], None).

Fixpoint utf8_run (st : utf8_state) (bs : Buffer) : JSString :=
  match bs with
  | [] => match st with Some _ => [65533] | None => [] end
  | x :: rest =>
      let b := Byte.to_N x in
      match st with
      | None => let '(out, st') := utf8_lead b in out ++ utf8_run st' rest
      | Some (cp, needed, lower, upper) =>
          if (lower <=? b) && (b <=? upper) then
            let cp' := N.lor (N.shiftl cp 6) (N.land b 63) in
            match needed with
            | S (S n) => utf8_run (Some (cp', S n, 128, 191)) rest
            | _ => utf16 cp' ++ utf8_run None rest
            end
          else
            let '(out, st') := utf8_lead b in
            65533 :: out ++ utf8_run st' rest
      end
  end.

Definition utf8_decode (b : Buffer) : JSString := utf8_run None b.

(** ** Concrete scenarios *)
Module Scenario.

Definition bytes (s : string) : Buffer := String.list_byte_of_string s.

Definition no_fault {A} : A → option JSString := λ _, None.

(** A deployment with nothing stored and no failing remote. *)
Definition world0 : World :=
  {| files := ∅; bucket := ∅; s3_fault := no_fault; documents := [];
     repo_fault := no_fault;
     oid_counter := 0x507f1f77bcf86cd799439011;
     now := 1700000000000;
     random36 := λ _, js "0.4fzyo82mvyr"; random_draws := 0;
     trace := [] |}.

Definition env_of (storage : string) : JSString → option JSString :=
  λ k, if decide (k = js "STORAGE_TYPE") then Some (js storage)
       else if decide (k = js "S3_BUCKET_NAME") then Some (js "docs")
       else None.

Definition cfg_filesystem : BaseConfig := BaseConfig_of_env (λ _, None).
Definition cfg_mongodb : BaseConfig := BaseConfig_of_env (env_of "mongodb").
Definition cfg_s3 : BaseConfig := BaseConfig_of_env (env_of "s3").

Definition result {A} (r : Completion A * World) (fallback : A) : A :=
  match r.1 with
  | Normal a => a
  | Throw _ => fallback
  end.

(** The id under which [world0] stores its first record. *)
Definition first_oid : ObjectId := ObjectId_generate (oid_counter world0).
Definition first_id : JSString := ObjectId_toString first_oid.

(** [/tmp/note.txt] holds ["hello"]; it is registered under the file
    system backend. *)
Definition note_path : JSString := js "/tmp/note.txt".
Definition note_world : World :=
  set_files {[ note_path := bytes "hello" ]} world0.
Definition note_created : Completion Document * World :=
  createDocument cfg_filesystem (js "note.txt") (Some note_path) None
                 note_world.
Definition note_doc : Document := result note_created new_Document.
Definition note_saved : World := note_created.2.

(** The same record after the file was removed behind the service. *)
Definition note_lost : World := set_files ∅ note_saved.

(** ["hello"] uploaded as ["a b.txt"] under the S3 backend. *)
Definition s3_created : Completion Document * World :=
  createDocument cfg_s3 (js "a b.txt") None (Some (bytes "hello")) world0.
Definition s3_doc : Document := result s3_created new_Document.
Definition s3_saved : World := s3_created.2.
Definition s3_key : JSString := default [] (s3Key s3_doc).

(** The same deployment when the remote rejects deletions. *)
Definition reject_delete (c : S3Command) : option JSString :=
  match c with
  | DeleteObjectCommand _ _ => Some (js "S3 deletion failed")
  | _ => None
  end.
Definition s3_down : World :=
  mkWorld (files s3_saved) (bucket s3_saved) reject_delete
          (documents s3_saved) (repo_fault s3_saved)
          (oid_counter s3_saved) (now s3_saved) (random36 s3_saved)
          (random_draws s3_saved) (trace s3_saved).

(** ["hello"] stored in the record itself under the MongoDB backend,
    with a path given besides the buffer. *)
Definition blob_created : Completion Document * World :=
  createDocument cfg_mongodb (js "note.txt") (Some note_path)
                 (Some (bytes "hello")) world0.
Definition blob_doc : Document := result blob_created new_Document.

(** Three records created at increasing times, stored in that order. *)
Definition at_time (i t : N) : Document :=
  set_createdAt t (set_id (ObjectId_generate i) new_Document).
Definition three_docs : World :=
  set_documents [at_time 1 10; at_time 2 20; at_time 3 30] world0.

End Scenario.

(** ** The HTTP controller ([controllers/document.controller.ts]) *)

(** [Express.Multer.File] as the controller reads it: disk storage fills
    [path] and leaves [buffer] undefined, memory storage the reverse. *)
Module Multer.
Record File : Type := mkFile {
  originalname : JSString;
  filename : option JSString;
  path : option JSString;
  size : N;
  buffer : option Buffer
}.
End Multer.

(** The request, of which only [request.file] is read. *)
Module Request.
Record t : Type := mk { file : option Multer.File }.
End Request.

(** [models/upload-document.response.ts] *)
Module UploadDocumentResponse.
Record t : Type := mk {
  message : JSString;
  id : JSString;
  name : option JSString;
  path : option JSString;
  createdAt : option N;
  updatedAt : option N
}.
End UploadDocumentResponse.

(** [models/get-document-content.response.ts] *)
Module GetDocumentContentResponse.
Record t : Type := mk {
  id : JSString;
  name : option JSString;
  path : option JSString;
  content : JSString
}.
End GetDocumentContentResponse.

(** An element of the listing that the controller returns. *)
Module ListItem.
Record t : Type := mk {
  id : JSString;
  name : option JSString;
  path : option JSString;
  createdAt : option N;
  updatedAt : option N
}.
End ListItem.

(** [document.id.toString()]: a [TypeError] when [id] is undefined. *)
Definition id_toString (o : option ObjectId) : M JSString :=
  match o with
  | Some i => ret (ObjectId_toString i)
  | None =>
      throw (Error (js "Cannot read properties of undefined (reading 'toString')"))
  end.

(** [x || undefined] on an optional string. *)
Definition or_undefined (o : option JSString) : option JSString :=
  if truthy o then o else None.

(** [new UploadDocumentResponse(document)] *)
Definition new_UploadDocumentResponse (document : Document)
  : M UploadDocumentResponse.t :=
  let! id_ := id_toString (id document) in
  ret (UploadDocumentResponse.mk
         (js "File uploaded successfully") id_ (name document)
         (or_undefined (path document))
         (createdAt document) (updatedAt document)).

(** [new GetDocumentContentResponse(document, content)] *)
Definition new_GetDocumentContentResponse (document : Document)
    (content : JSString) : M GetDocumentContentResponse.t :=
  let! id_ := id_toString (id document) in
  ret (GetDocumentContentResponse.mk
         id_ (name document) (or_undefined (path document)) content).



Module DocumentController.
Section Controller.
Variable toString_utf8 : Buffer → JSString.
Variable cfg : BaseConfig.

Definition uploadDocument (request : Request.t)
  : M UploadDocumentResponse.t :=
  match Request.file request with
  | None => throw (Error (js "No file uploaded"))
  | Some file =>
      let! document :=
        if isS3Storage cfg then
          createDocument cfg (Multer.originalname file) None
                         (Multer.buffer file)
        else if isMongoDBStorage cfg then
          createDocument cfg (Multer.originalname file) None
                         (Multer.buffer file)
        else
          createDocument cfg (Multer.originalname file)
                         (Multer.path file) None
      in
      new_UploadDocumentResponse document
  end.


Definition getDocumentContent (id_ : JSString)
  : M GetDocumentContentResponse.t :=
  let! (document, content) := getDocumentContent toString_utf8 cfg id_ in
  new_GetDocumentContentResponse document content.

Definition deleteDocument (id_ : JSString) : M (bool * JSString) :=
  let! _ := deleteDocument cfg id_ in
  ret (true, js "Document deleted successfully").

Definition health : M JSString := ret (js "ok").
End Controller.
End DocumentController.

(** ** Vocabulary of the further statements *)

(** The computation leaves the component [f] of the world as it was,
    whatever its outcome. *)
Definition preserves {A X} (f : World → X) (m : M A) : Prop :=
  ∀ w, f (m w).2 = f w.

(** Every error that the computation throws satisfies [P]. *)
Definition throws_only {A} (P : JSError → Prop) (m : M A) : Prop :=
  ∀ w e w', m w = (Throw e, w') → P e.

(** The computation never throws. *)
Definition never_throws {A} (m : M A) : Prop :=
  ∀ w, ∃ a, (m w).1 = Normal a.

(** The message of the error starts with [prefix]. *)
Definition message_from (prefix : string) (e : JSError) : Prop :=
  js prefix `prefix_of` message e.

(** What the process asked of the outside during a computation. *)
Definition events_of {A} (m : M A) (w : World) : list IOEvent :=
  drop (length (trace w)) (trace (m w).2).

(** Every stored record has an id of twelve bytes, and no two records
    share one. *)
Definition store_ok (w : World) : Prop :=
  Forall (λ d, ∃ i, id d = Some i ∧ length i = 12%nat) (documents w) ∧
  NoDup (map id (documents w)).

(** The three predicates of [BaseConfig], in the order of the service's
    branches. *)
Definition storage_flags (cfg : BaseConfig) : bool * bool * bool :=
  (isS3Storage cfg, isMongoDBStorage cfg, isFileSystemStorage cfg).

(** A component of the world that an entry of the trace, a random draw
    and a change of the bucket do not touch. *)
Definition local_state {X} (f : World → X) : Prop :=
  (∀ e w, f (log e w) = f w) ∧ (∀ w, f (next_random w) = f w) ∧
  (∀ b w, f (set_bucket b w) = f w).

(** Every value that the computation returns satisfies [P]. *)
Definition returns_only {A} (P : A → Prop) (m : M A) : Prop :=
  ∀ w a w', m w = (Normal a, w') → P a.

(** [createDocument] up to the save: the draft that the active backend
    makes of the inputs. *)
Definition draft (cfg : BaseConfig) (name_ : JSString)
    (path_ : option JSString) (fileBuffer : option Buffer) : M Document :=
  let document := set_name name_ new_Document in
  if isS3Storage cfg then
    let! buffer_ :=
      match fileBuffer with
      | Some b => ret b
      | None =>
          if truthy path_ then fs_readFile (default [] path_)
          else throw (Error (js "Either path or fileBuffer must be provided for S3 storage"))
      end in
    let! s3Key_ := generateS3Key name_ in
    let! _ := uploadFile cfg s3Key_ buffer_ None in
    ret (set_s3Key s3Key_ document)
  else if isMongoDBStorage cfg then
    match fileBuffer with
    | Some b => ret (set_buffer b document)
    | None =>
        if truthy path_ then
          let! content := fs_readFile (default [] path_) in
          ret (set_buffer content document)
        else throw (Error (js "Either path or fileBuffer must be provided for MongoDB storage"))
    end
  else
    if negb (truthy path_) then
      throw (Error (js "Path must be provided for filesystem storage"))
    else ret (set_path (default [] path_) document).

(** ** Further scenarios *)
Module Faults.

Definition with_s3_fault (f : S3Command → option JSString) (w : World)
  : World :=
  mkWorld (files w) (bucket w) f (documents w) (repo_fault w)
          (oid_counter w) (now w) (random36 w) (random_draws w) (trace w).

Definition with_repo_fault (f : RepoCommand → option JSString) (w : World)
  : World :=
  mkWorld (files w) (bucket w) (s3_fault w) (documents w) f
          (oid_counter w) (now w) (random36 w) (random_draws w) (trace w).

Definition reject_put (c : S3Command) : option JSString :=
  match c with
  | PutObjectCommand _ _ _ _ => Some (js "Upload failed")
  | _ => None
  end.

Definition reject_get (c : S3Command) : option JSString :=
  match c with
  | GetObjectCommand _ _ => Some (js "Download failed")
  | _ => None
  end.

Definition reject_save (c : RepoCommand) : option JSString :=
  match c with
  | RepoSave _ => Some (js "Database error")
  | _ => None
  end.

Definition reject_repo_delete (c : RepoCommand) : option JSString :=
  match c with
  | RepoDelete _ => Some (js "Database error")
  | _ => None
  end.

Definition reject_findOneBy (c : RepoCommand) : option JSString :=
  match c with
  | RepoFindOneBy _ => Some (js "Connection lost")
  | _ => None
  end.

(** Nothing stored; the remote rejects uploads. *)
Definition put_rejected : World :=
  with_s3_fault reject_put Scenario.world0.

(** Nothing stored; the repository rejects saves. *)
Definition save_rejected : World :=
  with_repo_fault reject_save Scenario.world0.

(** The S3 record of [Scenario]; the remote rejects downloads. *)
Definition get_rejected : World :=
  with_s3_fault reject_get Scenario.s3_saved.

(** The note of [Scenario], its file in place; the repository rejects
    deletions. *)
Definition note_undeletable : World :=
  with_repo_fault reject_repo_delete Scenario.note_saved.

(** The note of [Scenario]; the repository rejects lookups. *)
Definition note_unreachable : World :=
  with_repo_fault reject_findOneBy Scenario.note_saved.

(** A record made under the file system for a file that is not there. *)
Definition ghost_created : Completion Document * World :=
  createDocument Scenario.cfg_filesystem (js "ghost.txt")
                 (Some (js "/tmp/ghost.txt")) None Scenario.world0.
Definition ghost_doc : Document :=
  Scenario.result ghost_created new_Document.

(** The upload of [/tmp/note.txt] as disk storage hands it over. *)
Definition disk_file : Multer.File :=
  Multer.mkFile (js "note.txt") (Some (js "1700000000000-note.txt"))
                (Some Scenario.note_path) 5 None.

(** The same upload as memory storage would hand it over. *)
Definition memory_file : Multer.File :=
  Multer.mkFile (js "note.txt") None None 5
                (Some (Scenario.bytes "hello")).

End Faults.

(** The first step of a deletion: the removal of the content that the
    active backend holds for a record. *)
Definition removeContent (cfg : BaseConfig) (document : Document) : M unit :=
  if isS3Storage cfg && truthy (s3Key document) then
    deleteFile cfg (default [] (s3Key document))
  else if isMongoDBStorage cfg then ret ()
  else if truthy (path document) then
    try_catch (fs_unlink (default [] (path document))) (λ error, ret ())
  else ret ().


(** The content [B] arrives with the upload in the way the controller
    passes it on: in the file at [file.path] under the file system, in
    [file.buffer] otherwise. *)
Definition uploads (cfg : BaseConfig) (w : World) (file : Multer.File)
    (B : Buffer) : Prop :=
  match activeBackend cfg with
  | Filesystem => ∃ p, Multer.path file = Some p ∧ files w !! p = Some B
  | _ => Multer.buffer file = Some B
  end.

(** * Properties *)

(** ** Identifiers *)
Lemma hex_of_byte_inv (b : Byte.byte) rest :
  bytes_of_hex (hex_of_byte b ++ rest) =
  match bytes_of_hex rest with Some bs => Some (b :: bs) | None => None end.
Proof. destruct b; reflexivity. Qed.

Lemma bytes_of_hex_toString (o : list Byte.byte) :
  bytes_of_hex (ObjectId_toString o) = Some o.
Proof.
  induction o as [|b o IH]; [done|].
  change (bytes_of_hex (hex_of_byte b ++ ObjectId_toString o) = Some (b :: o)).
  by rewrite hex_of_byte_inv, IH.
Qed.

Lemma length_ObjectId_toString (o : ObjectId) :
  length (ObjectId_toString o) = (2 * length o)%nat.
Proof.
  induction o as [|b o IH]; [done|].
  change (length (hex_of_byte b ++ ObjectId_toString o)
          = (2 * length (b :: o))%nat).
  rewrite length_app, IH. simpl. lia.
Qed.

Lemma length_bytes_be len n : length (bytes_be len n) = len.
Proof.
  revert n. induction len as [|k IH]; intros n; simpl; [done|].
  rewrite length_app, IH. simpl. lia.
Qed.

(** The string form of a twelve-byte id is read back as that id. *)
Lemma ObjectId_new_toString (o : ObjectId) :
  length o = 12%nat → ObjectId_new (ObjectId_toString o) = Some o.
Proof.
  intros H. unfold ObjectId_new. rewrite length_ObjectId_toString, H. simpl.
  apply bytes_of_hex_toString.
Qed.

(** ** Streams *)

(** [Buffer.concat] reassembles a body from its chunks, whatever their
    size. *)
Lemma concat_chunks_of fuel size (b : Buffer) :
  Buffer_concat (chunks_of fuel size b) = b.
Proof.
  unfold Buffer_concat. revert b.
  induction fuel as [|f IH]; intros [|x b]; simpl; try done.
  - by rewrite app_nil_r.
  - rewrite IH.
    change (take size (x :: b) ++ drop size (x :: b) = x :: b).
    apply take_drop.
Qed.

(** ** Configuration *)
(** Unset, the storage type is the file system. *)
Lemma activeBackend_default :
  activeBackend (BaseConfig_of_env (λ _, None)) = Filesystem.
Proof. reflexivity. Qed.

Lemma isS3Storage_not_mongo cfg :
  isS3Storage cfg = true → isMongoDBStorage cfg = false.
Proof.
  unfold isS3Storage, isMongoDBStorage. intros H%bool_decide_eq_true.
  by rewrite H.
Qed.

(** ** The repository *)
Lemma find_has_id_app i (ds : list Document) d :
  existsb (has_id i) ds = false → id d = Some i →
  find (λ x, has_id i x) (ds ++ [d]) = Some d.
Proof.
  intros Hn Hd. induction ds as [|x ds IH]; simpl in *.
  - unfold has_id. by rewrite bool_decide_eq_true_2.
  - apply orb_false_iff in Hn as [-> Hn]. auto.
Qed.

Lemma find_has_id_Some i (ds : list Document) d :
  find (λ x, has_id i x) ds = Some d → id d = Some i ∧ d ∈ ds.
Proof.
  intros H. apply find_some in H as [Hin H].
  split; [by apply bool_decide_eq_true in H|by apply list_elem_of_In].
Qed.

Lemma find_has_id_filter i (ds : list Document) :
  find (λ x, has_id i x) (filter (λ d, has_id i d = false) ds) = None.
Proof.
  induction ds as [|x ds IH]; [done|].
  rewrite filter_cons. destruct (decide (has_id i x = false)) as [E|E]; [|done].
  simpl. by rewrite E.
Qed.

Lemma filter_has_id_Forall i (ds : list Document) :
  Forall (λ x, id x ≠ Some i) (filter (λ d, has_id i d = false) ds).
Proof.
  apply Forall_forall. intros x [Hx _]%list_elem_of_filter Hx'.
  unfold has_id in Hx. by rewrite bool_decide_eq_true_2 in Hx.
Qed.

Lemma repo_save_new d w d' w' :
  id d = None →
  repo_save d w = (Normal d', w') →
  let i := ObjectId_generate (oid_counter w) in
  d' = set_updatedAt (now w) (set_createdAt (now w) (set_id i d)) ∧
  existsb (has_id i) (documents w) = false ∧
  w' = set_documents (documents w ++ [d'])
         (next_oid (log (RepoCall (RepoSave d)) w)).
Proof.
  intros Hid. unfold repo_save. rewrite Hid.
  destruct (repo_fault w (RepoSave d)); [done|].
  destruct (existsb _ _) eqn:E; [done|].
  intros [= <- <-]. done.
Qed.

Lemma repo_save_new_found d w d' w' :
  id d = None →
  repo_save d w = (Normal d', w') →
  ∃ i, id d' = Some i ∧ length i = 12%nat ∧
       find (λ x, has_id i x) (documents w') = Some d' ∧
       d' = set_updatedAt (now w) (set_createdAt (now w) (set_id i d)) ∧
       files w' = files w ∧ bucket w' = bucket w ∧
       s3_fault w' = s3_fault w ∧ repo_fault w' = repo_fault w ∧
       trace w' = trace w ++ [RepoCall (RepoSave d)].
Proof.
  intros Hid Hs. destruct (repo_save_new _ _ _ _ Hid Hs) as (Hd & Hex & ->).
  exists (ObjectId_generate (oid_counter w)).
  split; [by rewrite Hd|]. split; [apply length_bytes_be|].
  split; [|done]. simpl. apply find_has_id_app; [done|by rewrite Hd].
Qed.

Lemma repo_save_trace d w :
  trace (repo_save d w).2 = trace w ++ [RepoCall (RepoSave d)].
Proof.
  unfold repo_save. destruct (repo_fault w _); [done|].
  destruct (id d); destruct (existsb _ _); done.
Qed.

(** Dates are totally preordered, hence so is "newest first". *)
Global Instance Date_le_trans : Transitive Date_le.
Proof. intros [x|] [y|] [z|]; simpl; try done. lia. Qed.

Global Instance Date_le_total : Total Date_le.
Proof. intros [x|] [y|]; simpl; auto. lia. Qed.

Global Instance newest_first_trans : Transitive newest_first.
Proof. intros x y z Hxy Hyz. unfold newest_first in *. by etrans. Qed.

Global Instance newest_first_total : Total newest_first.
Proof. intros x y. unfold newest_first. apply (total Date_le). Qed.

(** ** The services, one backend at a time *)

(** Closes a goal in which the branch that [createDocument] takes
    contradicts the active backend, or in which it threw. *)
Ltac wrong_branch cfg :=
  unfold createDocument, activeBackend in *;
  destruct (isS3Storage cfg); [done|];
  by destruct (isMongoDBStorage cfg).

(** [path] is truthy: the default that stands for [undefined] is not
    used. *)
Ltac known_path c p :=
  change (default [] (Some (c :: p))) with (c :: p) in *.

Lemma generateS3Key_run name_ w :
  generateS3Key name_ w = (Normal (s3Key_at w name_), next_random w).
Proof. reflexivity. Qed.

Lemma createDocument_filesystem cfg name_ path_ fileBuffer w :
  activeBackend cfg = Filesystem →
  createDocument cfg name_ path_ fileBuffer w =
  if truthy path_
  then repo_save (set_path (default [] path_) (set_name name_ new_Document)) w
  else (Throw (Error (js "Path must be provided for filesystem storage")), w).
Proof.
  unfold activeBackend, createDocument. intros H.
  destruct (isS3Storage cfg); [done|]. destruct (isMongoDBStorage cfg); [done|].
  unfold bind. by destruct (truthy path_).
Qed.

Lemma createDocument_embedded_buffer cfg name_ path_ b w :
  activeBackend cfg = EmbeddedBlob →
  createDocument cfg name_ path_ (Some b) w =
  repo_save (set_buffer b (set_name name_ new_Document)) w.
Proof.
  unfold activeBackend, createDocument. intros H.
  destruct (isS3Storage cfg); [done|]. destruct (isMongoDBStorage cfg); [|done].
  reflexivity.
Qed.

Lemma createDocument_embedded_path cfg name_ p b w :
  activeBackend cfg = EmbeddedBlob → p ≠ [] → files w !! p = Some b →
  createDocument cfg name_ (Some p) None w =
  repo_save (set_buffer b (set_name name_ new_Document)) (log (FsReadFile p) w).
Proof.
  unfold activeBackend, createDocument. intros H Hp Hf.
  destruct (isS3Storage cfg); [done|]. destruct (isMongoDBStorage cfg); [|done].
  destruct p as [|c p]; [done|].
  known_path c p.
  unfold bind, fs_readFile. cbn [truthy].  by rewrite Hf.
Qed.

Lemma createDocument_object_buffer cfg name_ path_ b w :
  activeBackend cfg = ObjectStorage →
  createDocument cfg name_ path_ (Some b) w = store_in_s3 cfg name_ b w.
Proof.
  unfold activeBackend, createDocument, store_in_s3. intros H.
  destruct (isS3Storage cfg); [|by destruct (isMongoDBStorage cfg)].
  unfold bind, ret. rewrite !generateS3Key_run.
  by destruct (uploadFile cfg _ b None _) as [[]].
Qed.

Lemma createDocument_object_path cfg name_ p b w :
  activeBackend cfg = ObjectStorage → p ≠ [] → files w !! p = Some b →
  createDocument cfg name_ (Some p) None w =
  store_in_s3 cfg name_ b (log (FsReadFile p) w).
Proof.
  unfold activeBackend, createDocument, store_in_s3. intros H Hp Hf.
  destruct (isS3Storage cfg); [|by destruct (isMongoDBStorage cfg)].
  destruct p as [|c p]; [done|].
  known_path c p.
  unfold bind, ret, fs_readFile. cbn [truthy]. rewrite Hf.
  rewrite !generateS3Key_run.
  by destruct (uploadFile cfg _ b None _) as [[]].
Qed.

Lemma store_in_s3_ok cfg name_ b w doc w' :
  store_in_s3 cfg name_ b w = (Normal doc, w') →
  let key := s3Key_at w name_ in
  let w1 := set_bucket (<[(S3_BUCKET_NAME cfg, key) := b]> (bucket w))
              (log (S3Send (PutObjectCommand (S3_BUCKET_NAME cfg) key b None))
                   (next_random w)) in
  s3_fault w (PutObjectCommand (S3_BUCKET_NAME cfg) key b None) = None ∧
  repo_save (set_s3Key key (set_name name_ new_Document)) w1 = (Normal doc, w').
Proof.
  unfold store_in_s3, bind, uploadFile, try_catch, bind, s3Client_send, bucketName.
  rewrite generateS3Key_run. simpl.
  destruct (s3_fault w _) eqn:E; simpl; [done|]. done.
Qed.

Lemma store_in_s3_trace cfg name_ b w :
  ∃ evs, trace (store_in_s3 cfg name_ b w).2 = trace w ++ evs ∧
         Forall (λ e, is_read e = false) evs.
Proof.
  unfold store_in_s3, bind. rewrite generateS3Key_run.
  unfold uploadFile, try_catch, bind, s3Client_send, bucketName.
  cbn [s3_fault next_random]. destruct (s3_fault w _).
  - cbn. eexists [_]. split; [done|]. by repeat constructor.
  - cbn -[repo_save]. rewrite repo_save_trace. cbn. rewrite <-app_assoc.
    eexists. split; [done|]. by repeat constructor.
Qed.

(** Every successful creation ends in the insertion of a draft whose
    single locator is the one of the active backend. *)
Lemma createDocument_saves cfg name_ path_ fileBuffer w doc w' :
  createDocument cfg name_ path_ fileBuffer w = (Normal doc, w') →
  ∃ d w0, repo_save d w0 = (Normal doc, w') ∧ id d = None ∧
    name d = Some name_ ∧
    match activeBackend cfg with
    | Filesystem =>
        ∃ p, path_ = Some p ∧ p ≠ [] ∧
             d = set_path p (set_name name_ new_Document) ∧ w0 = w
    | EmbeddedBlob =>
        ∃ b, d = set_buffer b (set_name name_ new_Document)
    | ObjectStorage =>
        ∃ b k, d = set_s3Key k (set_name name_ new_Document) ∧
               js "documents/" `prefix_of` k ∧
               bucket w0 !! (S3_BUCKET_NAME cfg, k) = Some b
    end.
Proof.
  intros Hc. destruct (activeBackend cfg) eqn:HB.
  - rewrite createDocument_filesystem in Hc by done.
    destruct path_ as [[|c p]|]; cbn [truthy] in Hc; try done.
    eexists _, _. split; [exact Hc|]. split_and!; try done. by exists (c :: p).
  - destruct fileBuffer as [b|].
    + rewrite createDocument_embedded_buffer in Hc by done.
      eexists _, _. split; [exact Hc|]. eauto.
    + destruct path_ as [[|c p]|].
      1,3: wrong_branch cfg.
      destruct (files w !! (c :: p)) as [b|] eqn:Hf.
      * erewrite createDocument_embedded_path in Hc by done.
        eexists _, _. split; [exact Hc|]. eauto.
      * unfold createDocument, activeBackend, bind, fs_readFile in *.
        destruct (isS3Storage cfg); [done|].
        destruct (isMongoDBStorage cfg); [|done].
        known_path c p.
        cbn [truthy] in Hc. by rewrite Hf in Hc.
  - assert (∃ b w0, store_in_s3 cfg name_ b w0 = (Normal doc, w'))
      as (b & w0 & Hstore).
    { destruct fileBuffer as [b|].
      - rewrite createDocument_object_buffer in Hc by done. eauto.
      - destruct path_ as [[|c p]|].
        1,3: wrong_branch cfg.
        destruct (files w !! (c :: p)) as [b|] eqn:Hf.
        + erewrite createDocument_object_path in Hc by done. eauto.
        + unfold createDocument, activeBackend, bind, fs_readFile in *.
          destruct (isS3Storage cfg); [|by destruct (isMongoDBStorage cfg)].
          known_path c p.
          cbn [truthy] in Hc. by rewrite Hf in Hc. }
    apply store_in_s3_ok in Hstore as [_ Hs].
    eexists _, _. split; [exact Hs|]. split_and!; try done.
    eexists b, _. split_and!; [done| |].
    + by eexists.
    + cbn. apply lookup_insert_eq.
Qed.

Lemma getDocumentById_run id_ w :
  getDocumentById id_ w =
  match ObjectId_new id_ with
  | None => (Normal None, w)
  | Some i =>
      match repo_fault w (RepoFindOneBy i) with
      | Some _ => (Normal None, log (RepoCall (RepoFindOneBy i)) w)
      | None => (Normal (find (λ d, has_id i d) (documents w)),
                 log (RepoCall (RepoFindOneBy i)) w)
      end
  end.
Proof.
  unfold getDocumentById, try_catch, bind, ObjectId_construct, repo_findOneBy.
  destruct (ObjectId_new id_) as [i|]; [|done]. simpl.
  by destruct (repo_fault w _).
Qed.

Lemma getDocumentContent_found utf8 cfg id_ i d w :
  ObjectId_new id_ = Some i →
  repo_fault w (RepoFindOneBy i) = None →
  find (λ x, has_id i x) (documents w) = Some d →
  getDocumentContent utf8 cfg id_ w =
  readContent utf8 cfg d (log (RepoCall (RepoFindOneBy i)) w).
Proof.
  intros Hi Hf Hd. unfold getDocumentContent, bind.
  rewrite getDocumentById_run, Hi, Hf, Hd. reflexivity.
Qed.

Lemma readContent_filesystem utf8 cfg d p B w :
  activeBackend cfg = Filesystem → path d = Some p → p ≠ [] →
  files w !! p = Some B →
  (readContent utf8 cfg d w).1 = Normal (d, utf8 B).
Proof.
  unfold activeBackend, readContent. intros H Hp Hne Hf.
  destruct (isS3Storage cfg); [done|]. destruct (isMongoDBStorage cfg); [done|].
  rewrite Hp. destruct p as [|c p]; [done|].
  known_path c p.
  unfold try_catch, bind, fs_readFile_utf8, bind, fs_readFile. cbn [andb truthy].
  by rewrite Hf.
Qed.

Lemma readContent_embedded utf8 cfg d B w :
  activeBackend cfg = EmbeddedBlob → buffer d = Some B →
  (readContent utf8 cfg d w).1 = Normal (d, utf8 B).
Proof.
  unfold activeBackend, readContent. intros H Hb.
  destruct (isS3Storage cfg); [done|]. destruct (isMongoDBStorage cfg); [|done].
  by rewrite Hb.
Qed.

Lemma readContent_object utf8 cfg d k B w :
  activeBackend cfg = ObjectStorage → s3Key d = Some k → k ≠ [] →
  s3_fault w (GetObjectCommand (S3_BUCKET_NAME cfg) k) = None →
  bucket w !! (S3_BUCKET_NAME cfg, k) = Some B →
  (readContent utf8 cfg d w).1 = Normal (d, utf8 B).
Proof.
  unfold activeBackend, readContent. intros H Hk Hne Hf Hb.
  destruct (isS3Storage cfg); [|by destruct (isMongoDBStorage cfg)].
  rewrite Hk. destruct k as [|c k]; [done|].
  known_path c k.
  unfold try_catch, bind, downloadFile, try_catch, bind, s3Client_send, bucketName.
  cbn [andb truthy]. rewrite Hf, Hb. simpl.
  unfold stream_of. by rewrite concat_chunks_of.
Qed.

Lemma readContent_no_location utf8 cfg d w :
  (isS3Storage cfg && truthy (s3Key d)) = false →
  (isMongoDBStorage cfg && defined (buffer d)) = false →
  truthy (path d) = false →
  readContent utf8 cfg d w = (Throw NoValidLocation, w).
Proof.
  intros H1 H2 H3. unfold readContent. by rewrite H1, H2, H3.
Qed.

Lemma deleteDocument_found cfg id_ i d w :
  ObjectId_new id_ = Some i →
  repo_fault w (RepoFindOneBy i) = None →
  find (λ x, has_id i x) (documents w) = Some d →
  deleteDocument cfg id_ w =
  deleteLoaded cfg d (log (RepoCall (RepoFindOneBy i)) w).
Proof.
  intros Hi Hf Hd. unfold deleteDocument, bind.
  rewrite getDocumentById_run, Hi, Hf, Hd. reflexivity.
Qed.


(** ** Key generation *)

Lemma length_sanitize name_ : length (sanitize name_) = length name_.
Proof. unfold sanitize. apply length_map. Qed.

Lemma sanitize_lookup name_ (n : nat) c :
  name_ !! n = Some c →
  sanitize name_ !! n = Some (if allowed c then c else 95).
Proof.
  revert n. induction name_ as [|x l IH]; intros [|n] H; simplify_eq/=; auto.
Qed.

Lemma sanitize_clean name_ :
  Forall (λ c, allowed c = true ∨ c = 95) (sanitize name_).
Proof.
  induction name_ as [|x l IH]; constructor; [|done].
  destruct (allowed x) eqn:E; auto.
Qed.

(** The sanitisation cases of the repository's test suite. *)
Example sanitize_special_characters :
  sanitize (js "test file@#$%^&*().txt") = js "test_file_________.txt".
Proof. reflexivity. Qed.

Example sanitize_hyphens_and_dots :
  sanitize (js "my-document.v2.txt") = js "my-document.v2.txt".
Proof. reflexivity. Qed.

Example generateS3Key_example :
  (generateS3Key (js "a b.txt") Scenario.world0).1 =
  Normal (js "documents/1700000000000-4fzyo82mvyr-a_b.txt").
Proof. reflexivity. Qed.

(** * The claims *)

Import Scenario.

(** C1. Round trip: under each of the three backends, when
    [createDocument] is given its content [B] the way the backend requires
    (a path whose file holds [B], or a buffer [B]) and succeeds with a
    record of id [i], then, the configuration being the same and the
    retrieval's remote calls not being rejected, [getDocumentContent] on
    the string form of [i] succeeds with that record and with [B] decoded
    as UTF-8. *)
Theorem create_getContent_roundtrip utf8 cfg name_ path_ fileBuffer B w doc w' :
  supplies cfg w path_ fileBuffer B →
  createDocument cfg name_ path_ fileBuffer w = (Normal doc, w') →
  reads_available w' →
  ∃ i, id doc = Some i ∧
       (getDocumentContent utf8 cfg (ObjectId_toString i) w').1
       = Normal (doc, utf8 B).
Proof.
  unfold supplies. intros Hs Hc [Hs3 Hrepo].
  destruct (activeBackend cfg) eqn:HB.
  - (* Filesystem *)
    destruct Hs as (p & -> & Hp).
    rewrite createDocument_filesystem in Hc by done.
    destruct p as [|c p]; [done|]. cbn [truthy] in Hc.
    apply repo_save_new_found in Hc
      as (i & Hi & Hlen & Hfind & Hd & Hfiles & _); [|done].
    exists i. split; [done|].
    erewrite getDocumentContent_found; eauto using ObjectId_new_toString.
    eapply readContent_filesystem; eauto.
    + by rewrite Hd.
    + done.
    + simpl. by rewrite Hfiles.
  - (* EmbeddedBlob *)
    assert (∃ w0, repo_save (set_buffer B (set_name name_ new_Document)) w0
                  = (Normal doc, w')) as [w0 Hsave].
    { destruct Hs as [->|(-> & p & -> & Hp)].
      - rewrite createDocument_embedded_buffer in Hc by done. eauto.
      - destruct p as [|c p].
        + wrong_branch cfg.
        + erewrite createDocument_embedded_path in Hc by done. eauto. }
    apply repo_save_new_found in Hsave
      as (i & Hi & Hlen & Hfind & Hd & _); [|done].
    exists i. split; [done|].
    erewrite getDocumentContent_found; eauto using ObjectId_new_toString.
    eapply readContent_embedded; eauto. by rewrite Hd.
  - (* ObjectStorage *)
    assert (∃ w0, store_in_s3 cfg name_ B w0 = (Normal doc, w')) as [w0 Hstore].
    { destruct Hs as [->|(-> & p & -> & Hp)].
      - rewrite createDocument_object_buffer in Hc by done. eauto.
      - destruct p as [|c p].
        + wrong_branch cfg.
        + erewrite createDocument_object_path in Hc by done. eauto. }
    apply store_in_s3_ok in Hstore as [_ Hsave].
    apply repo_save_new_found in Hsave
      as (i & Hi & Hlen & Hfind & Hd & _ & Hbucket & _); [|done].
    exists i. split; [done|].
    erewrite getDocumentContent_found; eauto using ObjectId_new_toString.
    eapply readContent_object; eauto.
    + by rewrite Hd.
    + done.
    + simpl. rewrite Hbucket. simpl. apply lookup_insert_eq.
Qed.

Lemma roundtrip_note :
  note_created = (Normal note_doc, note_saved) ∧
  ∃ i, id note_doc = Some i ∧
       (getDocumentContent utf8_decode cfg_filesystem
          (ObjectId_toString i) note_saved).1
       = Normal (note_doc, js "hello").
Proof.
  split; [reflexivity|].
  apply (create_getContent_roundtrip utf8_decode cfg_filesystem
           (js "note.txt") (Some note_path) None (bytes "hello")
           note_world note_doc note_saved).
  - exists note_path. split; reflexivity.
  - reflexivity.
  - split; reflexivity.
Defined.

(** The same round trip through the bucket and through the record. *)
Example roundtrip_s3 :
  (getDocumentContent utf8_decode cfg_s3 first_id s3_saved).1 =
  Normal (s3_doc, js "hello").
Proof. vm_compute. reflexivity. Qed.

Example roundtrip_mongodb :
  (getDocumentContent utf8_decode cfg_mongodb first_id blob_created.2).1 =
  Normal (blob_doc, js "hello").
Proof. vm_compute. reflexivity. Qed.

(** C2. Deletion under ObjectStorage of a record whose [s3Key] is set:
    when the remote delete is rejected, [deleteDocument] throws
    "Failed to delete document: ..." carrying the cause, never calls the
    repository's delete, and leaves records, bucket and files as they
    were; when the remote delete and the repository's delete both
    succeed, the object and the record are gone. *)
Theorem delete_object_storage cfg id_ i d k w :
  activeBackend cfg = ObjectStorage →
  ObjectId_new id_ = Some i →
  repo_fault w (RepoFindOneBy i) = None →
  find (λ x, has_id i x) (documents w) = Some d →
  s3Key d = Some k → k ≠ [] →
  let del := DeleteObjectCommand (S3_BUCKET_NAME cfg) k in
  (∀ m, s3_fault w del = Some m →
     ∃ w', deleteDocument cfg id_ w =
             (Throw (Error (js "Failed to delete document: " ++
                            js "Failed to delete file from S3: " ++ m)), w') ∧
           documents w' = documents w ∧ bucket w' = bucket w ∧
           files w' = files w ∧
           trace w' = trace w ++ [RepoCall (RepoFindOneBy i); S3Send del]) ∧
  (s3_fault w del = None → repo_fault w (RepoDelete (Some i)) = None →
     ∃ w', deleteDocument cfg id_ w = (Normal (), w') ∧
           bucket w' !! (S3_BUCKET_NAME cfg, k) = None ∧
           find (λ x, has_id i x) (documents w') = None ∧
           Forall (λ x, id x ≠ Some i) (documents w')).
Proof.
  intros HB Hi Hf Hd Hk Hne del.
  rewrite (deleteDocument_found _ _ _ _ _ Hi Hf Hd).
  apply find_has_id_Some in Hd as [Hid _].
  unfold activeBackend in HB. unfold deleteLoaded.
  destruct (isS3Storage cfg); [|by destruct (isMongoDBStorage cfg)].
  rewrite Hk, Hid. destruct k as [|c k]; [done|].
  known_path c k. cbn [andb truthy].
  unfold try_catch, bind, deleteFile, try_catch, bind, s3Client_send, bucketName.
  split.
  - intros m Hm. cbn [s3_fault log]. fold del. rewrite Hm. cbn.
    eexists. split; [reflexivity|]. split_and!; try done.
    cbn. by rewrite <-app_assoc.
  - intros Hs3 Hrepo. cbn [s3_fault log]. fold del. rewrite Hs3.
    unfold repo_delete, ret. cbn. rewrite Hrepo.
    eexists. split; [reflexivity|]. cbn. split_and!.
    + apply lookup_delete_eq.
    + apply find_has_id_filter.
    + apply filter_has_id_Forall.
Qed.

Lemma delete_rejected_by_s3 :
  ∃ w', deleteDocument cfg_s3 first_id s3_down =
          (Throw (Error (js "Failed to delete document: Failed to delete file from S3: S3 deletion failed")),
           w') ∧
        documents w' = documents s3_down ∧ bucket w' = bucket s3_down ∧
        files w' = files s3_down ∧
        trace w' =
          trace s3_down ++
          [RepoCall (RepoFindOneBy first_oid);
           S3Send (DeleteObjectCommand (S3_BUCKET_NAME cfg_s3) s3_key)].
Proof.
  refine (proj1 (delete_object_storage cfg_s3 first_id first_oid s3_doc
                   s3_key s3_down _ _ _ _ _ _) (js "S3 deletion failed") _);
    first [vm_compute; reflexivity | by vm_compute].
Defined.

Example delete_accepted_by_s3 :
  ∃ w', deleteDocument cfg_s3 first_id s3_saved = (Normal (), w') ∧
        bucket w' = ∅ ∧ documents w' = [].
Proof. eexists. split; [reflexivity|]. split; vm_compute; reflexivity. Qed.

(** C3. Deletion under Filesystem of a record whose [path] is set and
    whose file is absent: the failure of [fs.unlink] is swallowed, the
    repository's delete is still called, and its outcome is the outcome
    of [deleteDocument]: on success the record no longer exists. *)
Theorem delete_filesystem_missing_file cfg id_ i d p w :
  activeBackend cfg = Filesystem →
  ObjectId_new id_ = Some i →
  repo_fault w (RepoFindOneBy i) = None →
  find (λ x, has_id i x) (documents w) = Some d →
  path d = Some p →
  files w !! p = None →
  let attempts :=
    [RepoCall (RepoFindOneBy i)] ++
    (if truthy (Some p) then [FsUnlink p] else []) ++
    [RepoCall (RepoDelete (Some i))] in
  (repo_fault w (RepoDelete (Some i)) = None →
     ∃ w', deleteDocument cfg id_ w = (Normal (), w') ∧
           find (λ x, has_id i x) (documents w') = None ∧
           Forall (λ x, id x ≠ Some i) (documents w') ∧
           trace w' = trace w ++ attempts) ∧
  (∀ m, repo_fault w (RepoDelete (Some i)) = Some m →
     ∃ w', deleteDocument cfg id_ w =
             (Throw (Error (js "Failed to delete document: " ++ m)), w') ∧
           trace w' = trace w ++ attempts).
Proof.
  intros HB Hi Hf Hd Hp Hfile attempts.
  rewrite (deleteDocument_found _ _ _ _ _ Hi Hf Hd).
  apply find_has_id_Some in Hd as [Hid _].
  unfold activeBackend in HB. unfold deleteLoaded.
  destruct (isS3Storage cfg); [done|]. destruct (isMongoDBStorage cfg); [done|].
  rewrite Hp, Hid. subst attempts. cbn [andb].
  unfold try_catch, bind, fs_unlink, repo_delete, ret.
  destruct p as [|c p]; cbn [truthy].
  - split.
    + intros Hr. cbn. rewrite Hr. eexists. split; [reflexivity|]. cbn.
      split_and!.
      * apply find_has_id_filter.
      * apply filter_has_id_Forall.
      * by rewrite <-app_assoc.
    + intros m Hr. cbn. rewrite Hr. eexists. split; [reflexivity|]. cbn.
      by rewrite <-app_assoc.
  - known_path c p. cbn [files log]. rewrite Hfile.
    split.
    + intros Hr. cbn. rewrite Hr. eexists. split; [reflexivity|]. cbn.
      split_and!.
      * apply find_has_id_filter.
      * apply filter_has_id_Forall.
      * by rewrite <-!app_assoc.
    + intros m Hr. cbn. rewrite Hr. eexists. split; [reflexivity|]. cbn.
      by rewrite <-!app_assoc.
Qed.

Lemma delete_after_file_lost :
  ∃ w', deleteDocument cfg_filesystem first_id note_lost = (Normal (), w') ∧
        find (λ x, has_id first_oid x) (documents w') = None ∧
        Forall (λ x, id x ≠ Some first_oid) (documents w') ∧
        trace w' =
          trace note_lost ++
          [RepoCall (RepoFindOneBy first_oid); FsUnlink note_path;
           RepoCall (RepoDelete (Some first_oid))].
Proof.
  refine (proj1 (delete_filesystem_missing_file cfg_filesystem first_id
                   first_oid note_doc note_path note_lost _ _ _ _ _ _) _);
    vm_compute; reflexivity.
Defined.

(** C4. Locator invariant: a record returned by a successful
    [createDocument] has exactly one of [path], [buffer], [s3Key]
    populated, and it is the one of the backend active at creation:
    [s3Key] under ObjectStorage, [buffer] under EmbeddedBlob, [path] under
    Filesystem. *)
Theorem created_record_has_one_locator cfg name_ path_ fileBuffer w doc w' :
  createDocument cfg name_ path_ fileBuffer w = (Normal doc, w') →
  populated doc = 1%nat ∧
  match activeBackend cfg with
  | ObjectStorage =>
      is_Some (s3Key doc) ∧ buffer doc = None ∧ path doc = None
  | EmbeddedBlob =>
      is_Some (buffer doc) ∧ s3Key doc = None ∧ path doc = None
  | Filesystem =>
      is_Some (path doc) ∧ s3Key doc = None ∧ buffer doc = None
  end.
Proof.
  intros Hc. apply createDocument_saves in Hc as (d & w0 & Hs & Hid & _ & Hd).
  apply repo_save_new in Hs as (-> & _); [|done].
  destruct (activeBackend cfg).
  - destruct Hd as (p & _ & _ & -> & _). by cbn.
  - destruct Hd as (b & ->). by cbn.
  - destruct Hd as (b & k & -> & _). by cbn.
Qed.

Lemma s3_record_has_one_locator :
  populated s3_doc = 1%nat ∧
  is_Some (s3Key s3_doc) ∧ buffer s3_doc = None ∧ path s3_doc = None.
Proof.
  exact (created_record_has_one_locator cfg_s3 (js "a b.txt") None
           (Some (bytes "hello")) world0 s3_doc s3_saved eq_refl).
Defined.

(** C5, as the specification states it, fails: a record created under
    Filesystem is still read, through its [path], when the active backend
    has become ObjectStorage. *)
Lemma backend_switch_counterexample :
  note_created = (Normal note_doc, note_saved) ∧
  id note_doc = Some first_oid ∧
  activeBackend cfg_filesystem = Filesystem ∧
  activeBackend cfg_s3 = ObjectStorage ∧
  (getDocumentContent utf8_decode cfg_s3 first_id note_saved).1
    = Normal (note_doc, js "hello") ∧
  (getDocumentContent utf8_decode cfg_s3 first_id note_saved).1
    ≠ Throw NoValidLocation.
Proof. split_and!; try (vm_compute; reflexivity). by vm_compute. Qed.

(** C5, amended. A record created under ObjectStorage or EmbeddedBlob
    cannot be read once the active backend differs from the one of its
    creation: [getDocumentContent] throws "Failed to read document
    content: Document has no valid storage location (s3Key, buffer, or
    path)". A record created under Filesystem is still read, under every
    other backend, as long as its file is there. *)
Theorem backend_switch_retrieval utf8 cfg1 cfg2 name_ path_ fileBuffer w doc w1 :
  createDocument cfg1 name_ path_ fileBuffer w = (Normal doc, w1) →
  activeBackend cfg2 ≠ activeBackend cfg1 →
  ∀ w2 i,
    id doc = Some i →
    find (λ x, has_id i x) (documents w2) = Some doc →
    repo_fault w2 (RepoFindOneBy i) = None →
    match activeBackend cfg1 with
    | Filesystem =>
        ∀ p B, path_ = Some p → files w2 !! p = Some B →
          (getDocumentContent utf8 cfg2 (ObjectId_toString i) w2).1
          = Normal (doc, utf8 B)
    | _ =>
        (getDocumentContent utf8 cfg2 (ObjectId_toString i) w2).1
        = Throw NoValidLocation
    end.
Proof.
  intros Hc Hne w2 i Hi Hfind Hfault.
  apply createDocument_saves in Hc as (d & w0 & Hs & Hid & _ & Hd).
  apply repo_save_new_found in Hs as (i' & Hi' & Hlen & _ & Hdoc & _); [|done].
  assert (i' = i) as -> by congruence.
  rewrite (getDocumentContent_found utf8 cfg2 _ i doc)
    by auto using ObjectId_new_toString.
  unfold activeBackend in *.
  destruct (isS3Storage cfg1) eqn:E1; [|destruct (isMongoDBStorage cfg1) eqn:E2].
  - destruct Hd as (b & k & -> & _).
    destruct (isS3Storage cfg2) eqn:E3; [done|].
    rewrite readContent_no_location; rewrite ?Hdoc, ?E3; cbn;
      by rewrite ?andb_false_r.
  - destruct Hd as (b & ->).
    destruct (isS3Storage cfg2) eqn:E3.
    + rewrite readContent_no_location;
        rewrite ?Hdoc, ?(isS3Storage_not_mongo _ E3); cbn;
        by rewrite ?andb_false_r.
    + destruct (isMongoDBStorage cfg2) eqn:E4; [done|].
      rewrite readContent_no_location; rewrite ?Hdoc, ?E3, ?E4; cbn;
        by rewrite ?andb_false_r.
  - destruct Hd as (p & -> & Hp & -> & _). intros p' B [= <-] Hf.
    unfold readContent. rewrite Hdoc.
    cbn [s3Key buffer path set_updatedAt set_createdAt set_id set_path
         set_name new_Document].
    rewrite !andb_false_r. destruct p as [|c p]; [done|].
    known_path c p. cbn [truthy].
    unfold try_catch, bind, fs_readFile_utf8, bind, fs_readFile. cbn [files log].
    by rewrite Hf.
Qed.

Lemma s3_record_unreadable_on_filesystem :
  (getDocumentContent utf8_decode cfg_filesystem first_id s3_saved).1
  = Throw NoValidLocation.
Proof.
  refine (backend_switch_retrieval utf8_decode cfg_s3 cfg_filesystem
            (js "a b.txt") None (Some (bytes "hello")) world0 s3_doc
            s3_saved _ _ s3_saved first_oid _ _ _);
    first [vm_compute; reflexivity | by vm_compute].
Defined.

(** C6. Under Filesystem, [createDocument] with a buffer and no path
    throws "Path must be provided for filesystem storage" and leaves the
    world untouched (nothing saved, nothing read); a successful creation
    stores the record with [path] set, its only call to the outside being
    the save; and a creation with a non-empty path does succeed when the
    repository accepts the save. *)
Theorem filesystem_create_requires_path cfg :
  activeBackend cfg = Filesystem →
  (∀ name_ b w,
     createDocument cfg name_ None (Some b) w =
     (Throw (Error (js "Path must be provided for filesystem storage")), w)) ∧
  (∀ name_ p fileBuffer w doc w',
     createDocument cfg name_ (Some p) fileBuffer w = (Normal doc, w') →
     path doc = Some p ∧ doc ∈ documents w' ∧ files w' = files w ∧
     trace w' =
       trace w ++ [RepoCall (RepoSave (set_path p (set_name name_ new_Document)))]) ∧
  (∀ name_ p fileBuffer w,
     p ≠ [] →
     repo_fault w (RepoSave (set_path p (set_name name_ new_Document))) = None →
     existsb (has_id (ObjectId_generate (oid_counter w))) (documents w) = false →
     ∃ doc w', createDocument cfg name_ (Some p) fileBuffer w = (Normal doc, w')).
Proof.
  intros HB. split_and!.
  - intros. by rewrite createDocument_filesystem.
  - intros name_ p fileBuffer w doc w' Hc.
    rewrite createDocument_filesystem in Hc by done.
    destruct p as [|c p]; [done|]. cbn [truthy] in Hc.
    known_path c p.
    apply repo_save_new_found in Hc
      as (i & Hi & _ & Hfind & Hd & Hfiles & _ & _ & _ & Htr); [|done].
    split_and!; try done.
    + by rewrite Hd.
    + by apply find_has_id_Some in Hfind as [_ ?].
  - intros name_ [|c p] fileBuffer w Hp Hf Hfresh; [done|].
    rewrite createDocument_filesystem by done. cbn [truthy].
    known_path c p.
    unfold repo_save. rewrite Hf. cbn [id set_path set_name new_Document].
    rewrite Hfresh. eauto.
Qed.

Lemma buffer_only_on_filesystem :
  createDocument cfg_filesystem (js "note.txt") None (Some (bytes "hello"))
                 world0 =
  (Throw (Error (js "Path must be provided for filesystem storage")),
   world0).
Proof.
  exact (proj1 (filesystem_create_requires_path cfg_filesystem eq_refl)
           (js "note.txt") (bytes "hello") world0).
Defined.

(** C7. When no record exists for an id string, malformed or not,
    [getDocumentContent] throws "Document not found" and changes no
    record; on a malformed id it does so without any call to the
    outside. *)
Theorem getDocumentContent_not_found utf8 cfg id_ w :
  lookup_record id_ w = None →
  (getDocumentContent utf8 cfg id_ w).1 = Throw (Error (js "Document not found")) ∧
  documents (getDocumentContent utf8 cfg id_ w).2 = documents w ∧
  (ObjectId_new id_ = None →
   getDocumentContent utf8 cfg id_ w =
   (Throw (Error (js "Document not found")), w)).
Proof.
  unfold lookup_record, getDocumentContent, bind. rewrite getDocumentById_run.
  destruct (ObjectId_new id_) as [i|]; [|done].
  intros ->. by destruct (repo_fault w _).
Qed.

Lemma malformed_id_not_found :
  (getDocumentContent utf8_decode cfg_filesystem (js "invalid-id")
     note_saved).1
  = Throw (Error (js "Document not found")).
Proof.
  exact (proj1 (getDocumentContent_not_found utf8_decode cfg_filesystem
                  (js "invalid-id") note_saved eq_refl)).
Defined.

(** C8. When the repository answers, [getAllDocuments] returns the
    stored records, all of them, newest first; on an empty store it
    returns the empty list; records created at [t1 < t2 < t3] come back
    as [[d3; d2; d1]]. *)
Theorem getAllDocuments_newest_first w :
  repo_fault w (RepoFind (mkFindManyOptions (Some DESC))) = None →
  ∃ l, (getAllDocuments w).1 = Normal l ∧
       l ≡ₚ documents w ∧
       StronglySorted newest_first l ∧
       (documents w = [] → l = []) ∧
       (∀ d1 d2 d3 t1 t2 t3,
          documents w ≡ₚ [d1; d2; d3] →
          createdAt d1 = Some t1 → createdAt d2 = Some t2 →
          createdAt d3 = Some t3 → t1 < t2 → t2 < t3 →
          l = [d3; d2; d1]).
Proof.
  intros Hf. unfold getAllDocuments, bind, repo_find, ret. rewrite Hf.
  cbn [fst]. eexists. split; [reflexivity|].
  unfold apply_order. cbn [order_createdAt].
  pose proof (merge_sort_Permutation newest_first (documents w)) as Hperm.
  pose proof (StronglySorted_merge_sort newest_first (documents w)) as Hsort.
  split_and!; try done.
  - intros E. by rewrite E.
  - intros d1 d2 d3 t1 t2 t3 Hds H1 H2 H3 H12 H23.
    apply (StronglySorted_unique_strong newest_first); try done.
    + intros x y Hx Hy Hxy Hyx.
      rewrite Hperm, Hds in Hx. unfold newest_first in *.
      set_unfold in Hx. set_unfold in Hy.
      destruct Hx as [-> | [-> | [-> | []]]];
        destruct Hy as [-> | [-> | [-> | []]]];
        try done; rewrite ?H1, ?H2, ?H3 in Hxy, Hyx; simpl in *; lia.
    + repeat constructor; unfold newest_first; rewrite ?H1, ?H2, ?H3; simpl; lia.
    + rewrite Hperm, Hds.
      etrans; [apply Permutation_swap|].
      etrans; [apply Permutation_skip, Permutation_swap|].
      apply Permutation_swap.
Qed.

Lemma three_docs_newest_first :
  (getAllDocuments three_docs).1 =
  Normal [at_time 3 30; at_time 2 20; at_time 1 10].
Proof.
  destruct (getAllDocuments_newest_first three_docs eq_refl)
    as (l & -> & _ & _ & _ & H).
  f_equal. apply (H (at_time 1 10) (at_time 2 20) (at_time 3 30) 10 20 30);
    done.
Defined.

(** C9. [generateS3Key] returns "documents/", the time in decimal, "-",
    the random component, "-", and the sanitised name: the name with
    every code unit outside [[A-Za-z0-9.-]] replaced by '_'. The sanitised
    name has the length of the name, holds only code units of the class
    or '_', and so holds no space. *)
Theorem generateS3Key_shape name_ w :
  ∃ key,
    generateS3Key name_ w = (Normal key, next_random w) ∧
    key = js "documents/" ++ Number_toString (now w) ++ js "-" ++
          substring (random36 w (random_draws w)) 2 15 ++ js "-" ++
          sanitize name_ ∧
    js "documents/" `prefix_of` key ∧
    sanitize name_ `suffix_of` key ∧
    length (sanitize name_) = length name_ ∧
    (∀ (n : nat) c, name_ !! n = Some c →
       sanitize name_ !! n = Some (if allowed c then c else 95)) ∧
    Forall (λ c, allowed c = true ∨ c = 95) (sanitize name_) ∧
    32 ∉ sanitize name_.
Proof.
  eexists. split; [apply generateS3Key_run|]. unfold s3Key_at.
  split_and!.
  - done.
  - by eexists.
  - exists (js "documents/" ++ Number_toString (now w) ++ js "-" ++
            substring (random36 w (random_draws w)) 2 15 ++ js "-").
    by rewrite <-!app_assoc.
  - apply length_sanitize.
  - apply sanitize_lookup.
  - apply sanitize_clean.
  - intros H. pose proof (sanitize_clean name_) as Hc.
    rewrite Forall_forall in Hc. by destruct (Hc _ H).
Qed.

(** C10. Under ObjectStorage and EmbeddedBlob, when both a path and a
    buffer are given the path is ignored: the call behaves as without
    it, reads no file, and what it persists (the uploaded object, or the
    record's buffer) is the buffer given. *)
Theorem buffer_takes_precedence cfg name_ p b w :
  activeBackend cfg ≠ Filesystem →
  createDocument cfg name_ (Some p) (Some b) w =
    createDocument cfg name_ None (Some b) w ∧
  (∃ evs, trace (createDocument cfg name_ (Some p) (Some b) w).2
            = trace w ++ evs ∧
          Forall (λ e, is_read e = false) evs) ∧
  (∀ doc w',
     createDocument cfg name_ (Some p) (Some b) w = (Normal doc, w') →
     doc ∈ documents w' ∧
     match activeBackend cfg with
     | ObjectStorage =>
         ∃ k, s3Key doc = Some k ∧
              bucket w' !! (S3_BUCKET_NAME cfg, k) = Some b
     | _ => buffer doc = Some b
     end).
Proof.
  intros HB. destruct (activeBackend cfg) eqn:E; [done| |].
  - rewrite !createDocument_embedded_buffer by done. split_and!; [done| |].
    + rewrite repo_save_trace. eexists. split; [done|]. by repeat constructor.
    + intros doc w' Hs.
      apply repo_save_new_found in Hs as (i & _ & _ & Hfind & -> & _); [|done].
      split; [|done]. by apply find_has_id_Some in Hfind as [_ ?].
  - rewrite !createDocument_object_buffer by done. split_and!; [done| |].
    + apply store_in_s3_trace.
    + intros doc w' Hs. apply store_in_s3_ok in Hs as [_ Hs].
      apply repo_save_new_found in Hs
        as (i & _ & _ & Hfind & -> & _ & Hb & _); [|done].
      split; [by apply find_has_id_Some in Hfind as [_ ?]|].
      eexists. split; [done|]. rewrite Hb. cbn. apply lookup_insert_eq.
Qed.

Lemma path_ignored_on_mongodb :
  createDocument cfg_mongodb (js "note.txt") (Some note_path)
                 (Some (bytes "hello")) world0 =
  createDocument cfg_mongodb (js "note.txt") None (Some (bytes "hello"))
                 world0.
Proof.
  refine (proj1 (buffer_takes_precedence cfg_mongodb (js "note.txt")
                   note_path (bytes "hello") world0 _)).
  by vm_compute.
Defined.

(** ** The end-to-end example of the specification

    On the file system: the created record carries the path, its content
    reads back as "hello", and after deletion the id is not found. *)
Example filesystem_end_to_end :
  path note_doc = Some (js "/tmp/note.txt") ∧
  (getDocumentContent utf8_decode cfg_filesystem first_id note_saved).1
    = Normal (note_doc, js "hello") ∧
  (deleteDocument cfg_filesystem first_id note_saved).1 = Normal () ∧
  (getDocumentContent utf8_decode cfg_filesystem first_id
     (deleteDocument cfg_filesystem first_id note_saved).2).1
    = Throw (Error (js "Document not found")).
Proof. split_and!; vm_compute; reflexivity. Qed.


(** * Further properties *)

Import Faults.

(** ** Rules for the monad *)

Lemma preserves_ret {A X} (f : World → X) (a : A) : preserves f (ret a).
Proof. by intros w. Qed.

Lemma preserves_throw {A X} (f : World → X) e : preserves f (@throw A e).
Proof. by intros w. Qed.

Lemma preserves_bind {A B X} (f : World → X) (m : M A) (k : A → M B) :
  preserves f m → (∀ a, preserves f (k a)) → preserves f (bind m k).
Proof.
  intros Hm Hk w. unfold bind. specialize (Hm w).
  destruct (m w) as [[a|e] w1]; simpl in *; [|done].
  by rewrite Hk.
Qed.

Lemma preserves_try_catch {A X} (f : World → X) (m : M A) h :
  preserves f m → (∀ e, preserves f (h e)) → preserves f (try_catch m h).
Proof.
  intros Hm Hh w. unfold try_catch. specialize (Hm w).
  destruct (m w) as [[a|e] w1]; simpl in *; [done|].
  by rewrite Hh.
Qed.

Lemma bind_Throw_inv {A B} (m : M A) (k : A → M B) w e w' :
  bind m k w = (Throw e, w') →
  m w = (Throw e, w') ∨ ∃ a w1, m w = (Normal a, w1) ∧ k a w1 = (Throw e, w').
Proof.
  unfold bind. destruct (m w) as [[a|e1] w1]; simpl; intros H.
  - right. by exists a, w1.
  - left. by simplify_eq.
Qed.

Lemma bind_Normal_inv {A B} (m : M A) (k : A → M B) w b w' :
  bind m k w = (Normal b, w') →
  ∃ a w1, m w = (Normal a, w1) ∧ k a w1 = (Normal b, w').
Proof.
  unfold bind. destruct (m w) as [[a|e1] w1]; simpl; [|done].
  intros H. by exists a, w1.
Qed.

Lemma throws_only_try_catch {A} (P : JSError → Prop) (m : M A) h :
  (∀ e, throws_only P (h e)) → throws_only P (try_catch m h).
Proof.
  intros Hh w e w'. unfold try_catch.
  destruct (m w) as [[a|e1] w1]; [done|]. apply Hh.
Qed.

Lemma throws_only_throw {A} (P : JSError → Prop) e :
  P e → throws_only P (@throw A e).
Proof. by intros HP w e' w' [= <- _]. Qed.

Lemma throws_only_bind {A B} (P : JSError → Prop) (m : M A) (k : A → M B) :
  throws_only P m → (∀ a, throws_only P (k a)) → throws_only P (bind m k).
Proof.
  intros Hm Hk w e w' H.
  apply bind_Throw_inv in H as [H|(a & w1 & _ & H)].
  - exact (Hm _ _ _ H).
  - exact (Hk _ _ _ _ H).
Qed.

Lemma message_from_app (prefix : string) (m : JSString) :
  message_from prefix (Error (js prefix ++ m)).
Proof. by exists m. Qed.

(** ** What the primitives leave alone *)

Lemma fs_readFile_preserves {X} (f : World → X) p :
  (∀ e w, f (log e w) = f w) → preserves f (fs_readFile p).
Proof.
  intros Hlog w. unfold fs_readFile. destruct (files w !! p); apply Hlog.
Qed.

Lemma s3Client_send_documents c : preserves documents (s3Client_send c).
Proof.
  intros w. unfold s3Client_send. destruct (s3_fault w c); [done|].
  destruct c; [done| |done]. by destruct (bucket w !! _).
Qed.

Lemma s3Client_send_files c : preserves files (s3Client_send c).
Proof.
  intros w. unfold s3Client_send. destruct (s3_fault w c); [done|].
  destruct c; [done| |done]. by destruct (bucket w !! _).
Qed.

Lemma repo_save_files d : preserves files (repo_save d).
Proof.
  intros w. unfold repo_save. destruct (repo_fault w _); [done|].
  destruct (id d); by destruct (existsb _ _).
Qed.

Lemma repo_save_bucket d : preserves bucket (repo_save d).
Proof.
  intros w. unfold repo_save. destruct (repo_fault w _); [done|].
  destruct (id d); by destruct (existsb _ _).
Qed.

Lemma repo_findOneBy_preserves {X} (f : World → X) i :
  (∀ e w, f (log e w) = f w) → preserves f (repo_findOneBy i).
Proof.
  intros Hlog w. unfold repo_findOneBy.
  destruct (repo_fault w _); apply Hlog.
Qed.

Lemma getDocumentById_preserves {X} (f : World → X) id_ :
  (∀ e w, f (log e w) = f w) → preserves f (getDocumentById id_).
Proof.
  intros Hlog w. rewrite getDocumentById_run.
  destruct (ObjectId_new id_); [|done].
  destruct (repo_fault w _); apply Hlog.
Qed.

Lemma returns_only_ret {A} (P : A → Prop) a : P a → returns_only P (ret a).
Proof. by intros HP w a' w' [= <- _]. Qed.

Lemma returns_only_throw {A} (P : A → Prop) e :
  returns_only P (@throw A e).
Proof. by intros w a w'. Qed.

Lemma returns_only_bind {A B} (P : B → Prop) (m : M A) (k : A → M B) :
  (∀ a, returns_only P (k a)) → returns_only P (bind m k).
Proof.
  intros Hk w b w' H.
  apply bind_Normal_inv in H as (a & w1 & _ & H). exact (Hk _ _ _ _ H).
Qed.

Lemma files_local : local_state files.
Proof. by repeat split. Qed.

Lemma documents_local : local_state documents.
Proof. by repeat split. Qed.

Lemma s3Client_send_preserves {X} (f : World → X) c :
  local_state f → preserves f (s3Client_send c).
Proof.
  intros (Hlog & _ & Hb) w. unfold s3Client_send.
  destruct (s3_fault w c); [apply Hlog|].
  destruct c as [b k body ct|b k|b k]; cbn [snd]; rewrite ?Hb;
    try apply Hlog.
  destruct (bucket w !! (b, k)); apply Hlog.
Qed.

Lemma uploadFile_preserves {X} (f : World → X) cfg key body ct :
  local_state f → preserves f (uploadFile cfg key body ct).
Proof.
  intros Hf. apply preserves_try_catch; [|intros; apply preserves_throw].
  apply preserves_bind; [by apply s3Client_send_preserves|].
  intros; apply preserves_ret.
Qed.

Lemma generateS3Key_preserves {X} (f : World → X) name_ :
  local_state f → preserves f (generateS3Key name_).
Proof. intros (_ & Hr & _) w. rewrite generateS3Key_run. apply Hr. Qed.

(** ** The S3 service *)

(** X1. When the remote accepts the put, [uploadFile] returns the key it
    was given and stores the body under it, replacing what was there;
    when the remote then accepts the get, [downloadFile] of that key
    returns the body decoded as UTF-8. *)
Theorem uploadFile_then_downloadFile utf8 cfg key body contentType w :
  s3_fault w (PutObjectCommand (S3_BUCKET_NAME cfg) key body contentType)
    = None →
  ∃ w', uploadFile cfg key body contentType w = (Normal key, w') ∧
        bucket w' = <[(S3_BUCKET_NAME cfg, key) := body]> (bucket w) ∧
        (s3_fault w (GetObjectCommand (S3_BUCKET_NAME cfg) key) = None →
         (downloadFile utf8 cfg key w').1 = Normal (utf8 body)).
Proof.
  intros Hput. unfold uploadFile, try_catch, bind, s3Client_send, bucketName.
  rewrite Hput. eexists. split; [reflexivity|]. split; [reflexivity|].
  intros Hget.
  unfold downloadFile, try_catch, bind, s3Client_send, bucketName.
  cbn [s3_fault bucket set_bucket log]. rewrite Hget, lookup_insert_eq.
  cbn. unfold stream_of. by rewrite concat_chunks_of.
Qed.

Lemma upload_hello_then_download :
  ∃ w', uploadFile cfg_s3 (js "k") (bytes "hello") None world0
          = (Normal (js "k"), w') ∧
        (downloadFile utf8_decode cfg_s3 (js "k") w').1
          = Normal (js "hello").
Proof.
  destruct (uploadFile_then_downloadFile utf8_decode cfg_s3 (js "k")
              (bytes "hello") None world0 eq_refl) as (w' & H1 & _ & H2).
  exists w'. split; [exact H1|exact (H2 eq_refl)].
Defined.


(** A key that the bucket does not hold: the refusal of the remote is
    wrapped like any other. *)
Example download_missing_key :
  (downloadFile utf8_decode cfg_s3 (js "nowhere") world0).1 =
  Throw (Error (js "Failed to download file from S3: The specified key does not exist.")).
Proof. reflexivity. Qed.

(** ** Creation *)

(** The error message of a creation that was given nothing to store. *)
Lemma createDocument_nothing_given cfg name_ path_ w :
  truthy path_ = false →
  createDocument cfg name_ path_ None w =
  (Throw (Error (js
     match activeBackend cfg with
     | ObjectStorage =>
         "Either path or fileBuffer must be provided for S3 storage"
     | EmbeddedBlob =>
         "Either path or fileBuffer must be provided for MongoDB storage"
     | Filesystem => "Path must be provided for filesystem storage"
     end)), w).
Proof.
  intros Hp. unfold createDocument, activeBackend, bind.
  destruct (isS3Storage cfg); [|destruct (isMongoDBStorage cfg)];
    by rewrite Hp.
Qed.

(** X3. Given no buffer and no usable path (none, or the empty string,
    which is falsy), [createDocument] throws the message of the active
    backend and does nothing: no read, no upload, no save. *)
Theorem createDocument_requires_input cfg name_ path_ w :
  path_ = None ∨ path_ = Some [] →
  ∃ msg,
    createDocument cfg name_ path_ None w = (Throw (Error (js msg)), w) ∧
    msg = match activeBackend cfg with
          | ObjectStorage =>
              "Either path or fileBuffer must be provided for S3 storage"
          | EmbeddedBlob =>
              "Either path or fileBuffer must be provided for MongoDB storage"
          | Filesystem => "Path must be provided for filesystem storage"
          end.
Proof.
  intros Hp. eexists. split; [|reflexivity].
  apply createDocument_nothing_given. by destruct Hp as [-> | ->].
Qed.

Lemma empty_path_on_s3 :
  createDocument cfg_s3 (js "a.txt") (Some []) None world0 =
  (Throw (Error (js "Either path or fileBuffer must be provided for S3 storage")),
   world0).
Proof.
  destruct (createDocument_requires_input cfg_s3 (js "a.txt") (Some [])
              world0 (or_intror eq_refl)) as (msg & H & ->).
  exact H.
Defined.

(** X4. Under ObjectStorage and EmbeddedBlob, a creation from a path
    whose file cannot be read throws the error of the read as it is, after
    the read alone: nothing is uploaded and nothing is saved. *)
Theorem createDocument_unreadable_path cfg name_ p w :
  activeBackend cfg ≠ Filesystem → p ≠ [] → files w !! p = None →
  createDocument cfg name_ (Some p) None w =
  (Throw (ENOENT "open" p), log (FsReadFile p) w).
Proof.
  intros HB Hp Hf. unfold createDocument, activeBackend in *.
  destruct p as [|c p]; [done|]. known_path c p.
  unfold bind, fs_readFile. cbn [truthy].
  destruct (isS3Storage cfg); [|destruct (isMongoDBStorage cfg); [|done]];
    by rewrite Hf.
Qed.

Lemma missing_file_on_mongodb :
  createDocument cfg_mongodb (js "note.txt") (Some note_path) None world0 =
  (Throw (ENOENT "open" note_path), log (FsReadFile note_path) world0).
Proof.
  apply (createDocument_unreadable_path cfg_mongodb (js "note.txt")
           note_path world0); by vm_compute.
Defined.

(** X5. Under ObjectStorage, when the remote rejects the upload,
    [createDocument] throws "Failed to upload file to S3: ..." with the
    cause, and the repository is never asked to save: the only call to the
    outside is the rejected put. *)
Theorem createDocument_upload_rejected cfg name_ path_ b w m :
  activeBackend cfg = ObjectStorage →
  let put := PutObjectCommand (S3_BUCKET_NAME cfg) (s3Key_at w name_) b None in
  s3_fault w put = Some m →
  createDocument cfg name_ path_ (Some b) w =
  (Throw (Error (js "Failed to upload file to S3: " ++ m)),
   log (S3Send put) (next_random w)).
Proof.
  intros HB put Hm. rewrite createDocument_object_buffer by done.
  unfold store_in_s3, bind. rewrite generateS3Key_run.
  unfold uploadFile, try_catch, bind, s3Client_send, bucketName.
  cbn [s3_fault next_random]. fold put. by rewrite Hm.
Qed.

(** X6. Under ObjectStorage, when the upload succeeds and the repository
    then rejects the save, [createDocument] throws the repository's error
    as it is, no record is added, and the uploaded object stays in the
    bucket under a key that no record holds. *)
Theorem createDocument_save_rejected_after_upload cfg name_ path_ b w m :
  activeBackend cfg = ObjectStorage →
  let key := s3Key_at w name_ in
  s3_fault w (PutObjectCommand (S3_BUCKET_NAME cfg) key b None) = None →
  repo_fault w (RepoSave (set_s3Key key (set_name name_ new_Document)))
    = Some m →
  ∃ w', createDocument cfg name_ path_ (Some b) w = (Throw (Error m), w') ∧
        documents w' = documents w ∧
        bucket w' = <[(S3_BUCKET_NAME cfg, key) := b]> (bucket w).
Proof.
  intros HB key Hput Hsave. rewrite createDocument_object_buffer by done.
  unfold store_in_s3, bind. rewrite generateS3Key_run.
  unfold uploadFile, try_catch, bind, s3Client_send, bucketName.
  cbn [s3_fault next_random]. fold key. rewrite Hput.
  unfold ret, repo_save. cbn [repo_fault set_bucket log next_random].
  rewrite Hsave. by eexists.
Qed.
Lemma upload_rejected_on_s3 :
  createDocument cfg_s3 (js "a b.txt") None (Some (bytes "hello"))
                 put_rejected =
  (Throw (Error (js "Failed to upload file to S3: Upload failed")),
   log (S3Send (PutObjectCommand (S3_BUCKET_NAME cfg_s3)
                  (s3Key_at put_rejected (js "a b.txt")) (bytes "hello")
                  None))
       (next_random put_rejected)).
Proof.
  exact (createDocument_upload_rejected cfg_s3 (js "a b.txt") None
           (bytes "hello") put_rejected (js "Upload failed")
           eq_refl eq_refl).
Defined.

Lemma save_rejected_on_s3 :
  ∃ w', createDocument cfg_s3 (js "a b.txt") None (Some (bytes "hello"))
                       save_rejected
          = (Throw (Error (js "Database error")), w') ∧
        documents w' = documents save_rejected ∧
        bucket w' =
          <[(S3_BUCKET_NAME cfg_s3, s3Key_at save_rejected (js "a b.txt"))
              := bytes "hello"]> (bucket save_rejected).
Proof.
  exact (createDocument_save_rejected_after_upload cfg_s3 (js "a b.txt")
           None (bytes "hello") save_rejected (js "Database error")
           eq_refl eq_refl eq_refl).
Defined.

(** *** What a creation changes *)

Lemma createDocument_draft cfg name_ path_ fileBuffer :
  createDocument cfg name_ path_ fileBuffer =
  bind (draft cfg name_ path_ fileBuffer) repo_save.
Proof. reflexivity. Qed.

Lemma draft_preserves {X} (f : World → X) cfg name_ path_ fileBuffer :
  local_state f → preserves f (draft cfg name_ path_ fileBuffer).
Proof.
  intros Hf. pose proof Hf as (Hlog & _ & _). unfold draft.
  destruct (isS3Storage cfg); [|destruct (isMongoDBStorage cfg)].
  - apply preserves_bind.
    + destruct fileBuffer; [apply preserves_ret|].
      destruct (truthy path_); [by apply fs_readFile_preserves|].
      apply preserves_throw.
    + intros b. apply preserves_bind; [by apply generateS3Key_preserves|].
      intros k. apply preserves_bind; [by apply uploadFile_preserves|].
      intros; apply preserves_ret.
  - destruct fileBuffer; [apply preserves_ret|].
    destruct (truthy path_); [|apply preserves_throw].
    apply preserves_bind; [by apply fs_readFile_preserves|].
    intros; apply preserves_ret.
  - destruct (negb (truthy path_));
      [apply preserves_throw|apply preserves_ret].
Qed.

Lemma draft_bucket cfg name_ path_ fileBuffer :
  activeBackend cfg ≠ ObjectStorage →
  preserves bucket (draft cfg name_ path_ fileBuffer).
Proof.
  unfold activeBackend, draft. intros HB.
  destruct (isS3Storage cfg); [done|]. destruct (isMongoDBStorage cfg).
  - destruct fileBuffer; [apply preserves_ret|].
    destruct (truthy path_); [|apply preserves_throw].
    apply preserves_bind; [by apply fs_readFile_preserves|].
    intros; apply preserves_ret.
  - destruct (negb (truthy path_));
      [apply preserves_throw|apply preserves_ret].
Qed.

Lemma draft_has_no_id cfg name_ path_ fileBuffer :
  returns_only (λ d, id d = None ∧ name d = Some name_)
               (draft cfg name_ path_ fileBuffer).
Proof.
  unfold draft.
  destruct (isS3Storage cfg); [|destruct (isMongoDBStorage cfg)].
  - apply returns_only_bind. intros b. apply returns_only_bind. intros k.
    apply returns_only_bind. intros _. by apply returns_only_ret.
  - destruct fileBuffer; [by apply returns_only_ret|].
    destruct (truthy path_); [|apply returns_only_throw].
    apply returns_only_bind. intros b. by apply returns_only_ret.
  - destruct (negb (truthy path_));
      [apply returns_only_throw|by apply returns_only_ret].
Qed.

Lemma repo_save_Throw_documents d w e w' :
  repo_save d w = (Throw e, w') → documents w' = documents w.
Proof.
  unfold repo_save. destruct (repo_fault w _); [by intros [= _ <-]|].
  destruct (id d); destruct (existsb _ _); by intros [= _ <-].
Qed.

(** The save that ends a successful creation. *)
Lemma createDocument_Normal_inv cfg name_ path_ fileBuffer w doc w' :
  createDocument cfg name_ path_ fileBuffer w = (Normal doc, w') →
  ∃ d w1,
    draft cfg name_ path_ fileBuffer w = (Normal d, w1) ∧
    id d = None ∧ name d = Some name_ ∧
    documents w1 = documents w ∧ now w1 = now w ∧
    doc = set_updatedAt (now w)
            (set_createdAt (now w)
               (set_id (ObjectId_generate (oid_counter w1)) d)) ∧
    existsb (has_id (ObjectId_generate (oid_counter w1))) (documents w)
      = false ∧
    documents w' = documents w ++ [doc].
Proof.
  rewrite createDocument_draft. intros H.
  apply bind_Normal_inv in H as (d & w1 & E1 & E2).
  destruct (draft_has_no_id _ _ _ _ _ _ _ E1) as [Hid Hname].
  pose proof (draft_preserves documents cfg name_ path_ fileBuffer
                documents_local w) as Hd.
  pose proof (draft_preserves now cfg name_ path_ fileBuffer
                ltac:(by repeat split) w) as Hn.
  rewrite E1 in Hd, Hn. cbn in Hd, Hn.
  destruct (repo_save_new _ _ _ _ Hid E2) as (Hdoc & Hfresh & ->).
  rewrite Hn, Hd in *. exists d, w1. by split_and!.
Qed.

Lemma createDocument_Throw_documents cfg name_ path_ fileBuffer w e w' :
  createDocument cfg name_ path_ fileBuffer w = (Throw e, w') →
  documents w' = documents w.
Proof.
  rewrite createDocument_draft. intros E.
  pose proof (draft_preserves documents cfg name_ path_ fileBuffer
                documents_local w) as Hd.
  apply bind_Throw_inv in E as [E|(d & w1 & E1 & E2)].
  - by rewrite E in Hd.
  - rewrite E1 in Hd. cbn in Hd. rewrite <-Hd.
    by eapply repo_save_Throw_documents.
Qed.

Lemma fresh_id_Forall i (ds : list Document) :
  existsb (has_id i) ds = false → Forall (λ d, id d ≠ Some i) ds.
Proof.
  intros Hfresh. apply Forall_forall. intros x Hx Hi.
  apply not_true_iff_false in Hfresh. apply Hfresh.
  apply existsb_exists. exists x. split; [by apply list_elem_of_In|].
  by apply bool_decide_eq_true.
Qed.

(** X7. A creation never changes a local file. It adds the record it
    returns at the end of the collection and changes no other record;
    when it throws, the collection is as it was. Outside ObjectStorage
    it leaves the bucket alone. *)
Theorem createDocument_effects cfg name_ path_ fileBuffer w :
  let r := createDocument cfg name_ path_ fileBuffer w in
  files r.2 = files w ∧
  match r.1 with
  | Normal doc => documents r.2 = documents w ++ [doc]
  | Throw _ => documents r.2 = documents w
  end ∧
  (activeBackend cfg ≠ ObjectStorage → bucket r.2 = bucket w).
Proof.
  intros r. subst r. split_and!.
  - rewrite createDocument_draft.
    apply (preserves_bind files); [|apply repo_save_files].
    apply draft_preserves, files_local.
  - destruct (createDocument _ _ _ _ w) as [[doc|e] w'] eqn:E; cbn [fst snd].
    + by apply createDocument_Normal_inv in E as (d & w1 & _ & _ & _ & _ & _ & _ & _ & ?).
    + by eapply createDocument_Throw_documents.
  - intros HB. rewrite createDocument_draft.
    apply (preserves_bind bucket); [|apply repo_save_bucket].
    by apply draft_bucket.
Qed.

(** X8. The record that a successful creation returns carries the name
    it was given, the time of the save as both dates, and an id of twelve
    bytes that no record had before; the string of that id has
    twenty-four code units and is read back as the id. *)
Theorem created_record_fields cfg name_ path_ fileBuffer w doc w' :
  createDocument cfg name_ path_ fileBuffer w = (Normal doc, w') →
  name doc = Some name_ ∧
  createdAt doc = Some (now w) ∧ updatedAt doc = Some (now w) ∧
  ∃ i, id doc = Some i ∧ length i = 12%nat ∧
       Forall (λ d, id d ≠ Some i) (documents w) ∧
       length (ObjectId_toString i) = 24%nat ∧
       ObjectId_new (ObjectId_toString i) = Some i.
Proof.
  intros H. apply createDocument_Normal_inv in H
    as (d & w1 & _ & Hid & Hname & _ & _ & -> & Hfresh & _).
  split_and!; try done.
  exists (ObjectId_generate (oid_counter w1)).
  assert (length (ObjectId_generate (oid_counter w1)) = 12%nat) as Hlen
    by apply length_bytes_be.
  split; [done|]. split; [done|]. split; [|split].
  - by apply fresh_id_Forall.
  - by rewrite length_ObjectId_toString, Hlen.
  - by apply ObjectId_new_toString.
Qed.

Lemma s3_record_fields :
  name s3_doc = Some (js "a b.txt") ∧
  createdAt s3_doc = Some (now world0) ∧
  updatedAt s3_doc = Some (now world0) ∧
  ∃ i, id s3_doc = Some i ∧ length i = 12%nat ∧
       Forall (λ d, id d ≠ Some i) (documents world0) ∧
       length (ObjectId_toString i) = 24%nat ∧
       ObjectId_new (ObjectId_toString i) = Some i.
Proof.
  exact (created_record_fields cfg_s3 (js "a b.txt") None
           (Some (bytes "hello")) world0 s3_doc s3_saved eq_refl).
Defined.

(** X9. Under ObjectStorage, the [s3Key] of a created record is the key
    that [generateS3Key] makes of the name in the world of the call. It
    is never empty, so retrieval and deletion take the record for one
    stored in S3; the object under that key is in the bucket; and the
    creation has drawn exactly one random number. *)
Theorem created_s3Key cfg name_ path_ fileBuffer w doc w' :
  activeBackend cfg = ObjectStorage →
  createDocument cfg name_ path_ fileBuffer w = (Normal doc, w') →
  (generateS3Key name_ w).1 = Normal (s3Key_at w name_) ∧
  s3Key doc = Some (s3Key_at w name_) ∧
  truthy (s3Key doc) = true ∧
  is_Some (bucket w' !! (S3_BUCKET_NAME cfg, s3Key_at w name_)) ∧
  random_draws w' = S (random_draws w).
Proof.
  intros HB Hc.
  assert (∃ b w0, store_in_s3 cfg name_ b w0 = (Normal doc, w') ∧
                  (w0 = w ∨ ∃ e, w0 = log e w))
    as (b & w0 & Hs & Hw0).
  { destruct fileBuffer as [b|].
    - rewrite createDocument_object_buffer in Hc by done.
      exists b, w. by split; [|left].
    - destruct path_ as [[|c p]|]; [wrong_branch cfg| |wrong_branch cfg].
      destruct (files w !! (c :: p)) as [b|] eqn:Hf.
      + erewrite createDocument_object_path in Hc by done.
        exists b, (log (FsReadFile (c :: p)) w). split; [done|].
        right. by eexists.
      + unfold createDocument, activeBackend, bind, fs_readFile in *.
        destruct (isS3Storage cfg); [|by destruct (isMongoDBStorage cfg)].
        known_path c p. cbn [truthy] in Hc. by rewrite Hf in Hc. }
  assert (s3Key_at w0 name_ = s3Key_at w name_ ∧
          random_draws w0 = random_draws w)
    as (Hk & Hr) by (by destruct Hw0 as [->|[e ->]]).
  apply store_in_s3_ok in Hs as [_ Hs]. rewrite Hk in Hs.
  apply repo_save_new in Hs as (-> & _ & ->); [|done].
  split_and!; try done.
  - cbn. rewrite lookup_insert_eq. by eexists.
  - cbn. by rewrite Hr.
Qed.

Lemma s3_record_key :
  (generateS3Key (js "a b.txt") world0).1 =
    Normal (s3Key_at world0 (js "a b.txt")) ∧
  s3Key s3_doc = Some (s3Key_at world0 (js "a b.txt")) ∧
  truthy (s3Key s3_doc) = true ∧
  is_Some (bucket s3_saved
             !! (S3_BUCKET_NAME cfg_s3, s3Key_at world0 (js "a b.txt"))) ∧
  random_draws s3_saved = S (random_draws world0).
Proof.
  exact (created_s3Key cfg_s3 (js "a b.txt") None (Some (bytes "hello"))
           world0 s3_doc s3_saved eq_refl eq_refl).
Defined.

(** ** Retrieval *)

Lemma getDocumentById_never_throws id_ : never_throws (getDocumentById id_).
Proof.
  intros w. rewrite getDocumentById_run.
  destruct (ObjectId_new id_); [|by eexists].
  destruct (repo_fault w _); by eexists.
Qed.

(** X10. [getDocumentById] never throws. What it returns is a stored
    record whose id is the one the string denotes; a malformed string and
    a lookup that the repository rejects both give [null], as a missing
    record does; and no record, file or object is changed. *)
Theorem getDocumentById_total id_ w :
  ∃ r, (getDocumentById id_ w).1 = Normal r ∧
       (∀ d, r = Some d →
          ∃ i, ObjectId_new id_ = Some i ∧ id d = Some i ∧
               d ∈ documents w) ∧
       (ObjectId_new id_ = None → r = None) ∧
       (∀ i m, ObjectId_new id_ = Some i →
          repo_fault w (RepoFindOneBy i) = Some m → r = None) ∧
       documents (getDocumentById id_ w).2 = documents w ∧
       files (getDocumentById id_ w).2 = files w ∧
       bucket (getDocumentById id_ w).2 = bucket w.
Proof.
  rewrite getDocumentById_run.
  destruct (ObjectId_new id_) as [i|] eqn:Hi.
  - destruct (repo_fault w (RepoFindOneBy i)) eqn:Hf.
    + exists None. by split_and!.
    + eexists. split; [reflexivity|]. split_and!; try done.
      * intros d Hd. apply find_has_id_Some in Hd as [? ?]. by exists i.
      * intros i' m [= <-]. by rewrite Hf.
  - exists None. by split_and!.
Qed.

Example rejected_lookup_gives_null :
  (getDocumentById first_id note_unreachable).1 = Normal None ∧
  (getDocumentById first_id note_saved).1 = Normal (Some note_doc).
Proof. split; vm_compute; reflexivity. Qed.

Lemma readContent_preserves {X} (f : World → X) utf8 cfg d :
  local_state f → preserves f (readContent utf8 cfg d).
Proof.
  intros Hf. pose proof Hf as (Hlog & _ & _). unfold readContent.
  apply preserves_try_catch; [|intros; apply preserves_throw].
  apply preserves_bind; [|intros; apply preserves_ret].
  destruct (_ && _).
  { apply preserves_try_catch; [|intros; apply preserves_throw].
    apply preserves_bind; [by apply s3Client_send_preserves|].
    intros r. destruct (Body r); [apply preserves_ret|apply preserves_throw]. }
  destruct (_ && _); [apply preserves_ret|].
  destruct (truthy _); [|apply preserves_throw].
  apply preserves_bind; [by apply fs_readFile_preserves|].
  intros; apply preserves_ret.
Qed.

Lemma getDocumentContent_readContent utf8 cfg id_ :
  getDocumentContent utf8 cfg id_ =
  bind (getDocumentById id_)
       (λ found, match found with
                 | None => throw (Error (js "Document not found"))
                 | Some document => readContent utf8 cfg document
                 end).
Proof. reflexivity. Qed.

Lemma getDocumentContent_preserves {X} (f : World → X) utf8 cfg id_ :
  local_state f → preserves f (getDocumentContent utf8 cfg id_).
Proof.
  intros Hf. rewrite getDocumentContent_readContent.
  apply preserves_bind; [apply getDocumentById_preserves, Hf|].
  intros [d|]; [by apply readContent_preserves|apply preserves_throw].
Qed.

(** X11. [getDocumentContent] only reads: whatever its outcome, the
    records, the local files and the bucket are as they were. *)
Theorem getDocumentContent_reads_only utf8 cfg id_ :
  preserves documents (getDocumentContent utf8 cfg id_) ∧
  preserves files (getDocumentContent utf8 cfg id_) ∧
  preserves bucket (getDocumentContent utf8 cfg id_).
Proof.
  split_and!.
  - apply getDocumentContent_preserves, documents_local.
  - apply getDocumentContent_preserves, files_local.
  - intros w. rewrite getDocumentContent_readContent.
    apply (preserves_bind bucket); [by apply getDocumentById_preserves|].
    intros [d|]; [|apply preserves_throw]. unfold readContent.
    apply preserves_try_catch; [|intros; apply preserves_throw].
    apply preserves_bind; [|intros; apply preserves_ret].
    destruct (_ && _).
    { apply preserves_try_catch; [|intros; apply preserves_throw].
      apply preserves_bind.
      - intros w0. unfold s3Client_send. destruct (s3_fault w0 _); [done|].
        by destruct (bucket w0 !! _).
      - intros r. destruct (Body r);
          [apply preserves_ret|apply preserves_throw]. }
    destruct (_ && _); [apply preserves_ret|].
    destruct (truthy _); [|apply preserves_throw].
    apply preserves_bind; [by apply fs_readFile_preserves|].
    intros; apply preserves_ret.
Qed.

(** X12. [getDocumentContent] throws either "Document not found", as it
    is, or an error whose message starts with "Failed to read document
    content: "; nothing else reaches its caller. *)
Theorem getDocumentContent_errors utf8 cfg id_ :
  throws_only
    (λ e, e = Error (js "Document not found") ∨
          message_from "Failed to read document content: " e)
    (getDocumentContent utf8 cfg id_).
Proof.
  rewrite getDocumentContent_readContent.
  intros w e w' H. apply bind_Throw_inv in H as [H|(r & w1 & H1 & H2)].
  - destruct (getDocumentById_never_throws id_ w) as (r & Hr).
    by rewrite H in Hr.
  - destruct r as [d|]; [right|left; unfold throw in H2; by simplify_eq].
    revert H2. apply throws_only_try_catch. intros e'.
    apply throws_only_throw, message_from_app.
Qed.

(** X13. Under Filesystem a creation does not look at the file: for a
    path whose file is absent it still returns a record, and the content
    of that record cannot be read: [getDocumentContent] throws "Failed to
    read document content: " followed by the error of the read. *)
Theorem filesystem_record_of_missing_file
    utf8 cfg name_ p fileBuffer w doc w' :
  activeBackend cfg = Filesystem →
  files w !! p = None →
  createDocument cfg name_ (Some p) fileBuffer w = (Normal doc, w') →
  path doc = Some p ∧
  ∃ i, id doc = Some i ∧
       (repo_fault w (RepoFindOneBy i) = None →
        (getDocumentContent utf8 cfg (ObjectId_toString i) w').1 =
        Throw (Error (js "Failed to read document content: " ++
                      message (ENOENT "open" p)))).
Proof.
  intros HB Hf Hc. rewrite createDocument_filesystem in Hc by done.
  destruct p as [|c p]; [done|]. cbn [truthy] in Hc. known_path c p.
  apply repo_save_new_found in Hc
    as (i & Hi & Hlen & Hfind & Hd & Hfiles & _ & _ & Hrf & _); [|done].
  split; [by rewrite Hd|]. exists i. split; [done|]. intros Hfault.
  rewrite (getDocumentContent_found utf8 cfg _ i doc);
    [|by apply ObjectId_new_toString|by rewrite Hrf|done].
  unfold activeBackend in HB. unfold readContent.
  destruct (isS3Storage cfg); [done|].
  destruct (isMongoDBStorage cfg); [done|].
  rewrite Hd. cbn [path buffer s3Key set_updatedAt set_createdAt set_id
                   set_path set_name new_Document andb defined truthy].
  known_path c p.
  unfold try_catch, bind, fs_readFile_utf8, bind, fs_readFile.
  cbn [files log]. by rewrite Hfiles, Hf.
Qed.

Lemma ghost_record_unreadable :
  path ghost_doc = Some (js "/tmp/ghost.txt") ∧
  (getDocumentContent utf8_decode cfg_filesystem first_id
     ghost_created.2).1 =
  Throw (Error (js "Failed to read document content: ENOENT: no such file or directory, open '/tmp/ghost.txt'")).
Proof.
  destruct (filesystem_record_of_missing_file utf8_decode cfg_filesystem
              (js "ghost.txt") (js "/tmp/ghost.txt") None world0 ghost_doc
              ghost_created.2 eq_refl eq_refl eq_refl)
    as (H1 & i & Hi & H2).
  split; [exact H1|]. injection Hi as <-. exact (H2 eq_refl).
Defined.

(** X14. Under ObjectStorage, for a record with a non-empty [s3Key]:
    when the remote rejects the download, [getDocumentContent] throws the
    cause under both prefixes, the service's outside the S3 service's;
    when the bucket has no object under the key, it throws under the same
    two prefixes. The record's [path] and [buffer] are not tried. *)
Theorem getDocumentContent_download_fails utf8 cfg id_ i d k w :
  activeBackend cfg = ObjectStorage →
  ObjectId_new id_ = Some i →
  repo_fault w (RepoFindOneBy i) = None →
  find (λ x, has_id i x) (documents w) = Some d →
  s3Key d = Some k → k ≠ [] →
  let get := GetObjectCommand (S3_BUCKET_NAME cfg) k in
  (∀ m, s3_fault w get = Some m →
     (getDocumentContent utf8 cfg id_ w).1 =
     Throw (Error (js "Failed to read document content: " ++
                   js "Failed to download file from S3: " ++ m))) ∧
  (s3_fault w get = None → bucket w !! (S3_BUCKET_NAME cfg, k) = None →
     ∃ e, (getDocumentContent utf8 cfg id_ w).1 = Throw e ∧
          message_from "Failed to read document content: Failed to download file from S3: " e) ∧
  events_of (getDocumentContent utf8 cfg id_) w =
    [RepoCall (RepoFindOneBy i); S3Send get].
Proof.
  intros HB Hi Hf Hd Hk Hne get. unfold events_of.
  rewrite (getDocumentContent_found utf8 cfg _ i d) by done.
  unfold activeBackend in *. unfold readContent.
  destruct (isS3Storage cfg); [|by destruct (isMongoDBStorage cfg)].
  rewrite Hk. destruct k as [|c k]; [done|]. known_path c k.
  cbn [andb truthy].
  unfold try_catch, bind, downloadFile, try_catch, bind, s3Client_send,
    bucketName.
  cbn [s3_fault bucket log]. fold get.
  assert (∀ l : list IOEvent, drop (length (trace w)) ((trace w ++ l)) = l)
    as Hdrop by (intros l; by rewrite drop_app_length).
  split_and!.
  - intros m Hm. by rewrite Hm.
  - intros Hm Hb. rewrite Hm, Hb. eexists. split; [reflexivity|].
    by eexists.
  - destruct (s3_fault w get);
      [|destruct (bucket w !! (S3_BUCKET_NAME cfg, c :: k))];
      simpl; by rewrite <-app_assoc, Hdrop.
Qed.

Lemma download_rejected_on_s3 :
  (getDocumentContent utf8_decode cfg_s3 first_id get_rejected).1 =
  Throw (Error (js "Failed to read document content: Failed to download file from S3: Download failed")).
Proof.
  refine (proj1 (getDocumentContent_download_fails utf8_decode cfg_s3
                   first_id first_oid s3_doc s3_key get_rejected
                   _ _ _ _ _ _) (js "Download failed") _);
    first [vm_compute; reflexivity | by vm_compute].
Defined.

(** ** Deletion *)

Lemma deleteDocument_deleteLoaded cfg id_ :
  deleteDocument cfg id_ =
  bind (getDocumentById id_)
       (λ found, match found with
                 | None => throw (Error (js "Document not found"))
                 | Some document => deleteLoaded cfg document
                 end).
Proof. reflexivity. Qed.

Lemma drop_trace (w : World) (l : list IOEvent) :
  drop (length (trace w)) (trace w ++ l) = l.
Proof. by rewrite drop_app_length. Qed.

(** X15. When no record exists for an id string, [deleteDocument] throws
    "Document not found" as it is and deletes nothing: no file is
    unlinked, no object and no record removed; its only call to the
    outside, if the string is well formed, is the lookup. *)
Theorem deleteDocument_not_found cfg id_ w :
  lookup_record id_ w = None →
  (deleteDocument cfg id_ w).1 = Throw (Error (js "Document not found")) ∧
  documents (deleteDocument cfg id_ w).2 = documents w ∧
  files (deleteDocument cfg id_ w).2 = files w ∧
  bucket (deleteDocument cfg id_ w).2 = bucket w ∧
  events_of (deleteDocument cfg id_) w =
    match ObjectId_new id_ with
    | Some i => [RepoCall (RepoFindOneBy i)]
    | None => []
    end.
Proof.
  unfold lookup_record, events_of.
  rewrite deleteDocument_deleteLoaded. unfold bind.
  rewrite getDocumentById_run.
  destruct (ObjectId_new id_) as [i|].
  - intros ->. destruct (repo_fault w _); simpl; by rewrite drop_trace.
  - intros _. simpl. by rewrite drop_all.
Qed.

Lemma delete_unknown_id :
  (deleteDocument cfg_filesystem (js "507f1f77bcf86cd799439099")
     note_saved).1
  = Throw (Error (js "Document not found")).
Proof.
  exact (proj1 (deleteDocument_not_found cfg_filesystem
                  (js "507f1f77bcf86cd799439099") note_saved eq_refl)).
Defined.

Lemma deleteLoaded_removeContent cfg d :
  deleteLoaded cfg d =
  try_catch
    (bind (removeContent cfg d) (λ _, repo_delete (id d)))
    (λ error,
       throw (Error (js "Failed to delete document: " ++ message error))).
Proof. reflexivity. Qed.

Lemma fs_unlink_preserves {X} (f : World → X) p :
  (∀ e w, f (log e w) = f w) → (∀ fs w, f (set_files fs w) = f w) →
  preserves f (fs_unlink p).
Proof.
  intros Hlog Hfs w. unfold fs_unlink.
  destruct (files w !! p); cbn [snd]; by rewrite Hlog, ?Hfs.
Qed.

Lemma removeContent_documents cfg d : preserves documents (removeContent cfg d).
Proof.
  unfold removeContent. destruct (_ && _).
  - apply preserves_try_catch; [|intros; apply preserves_throw].
    apply preserves_bind; [|intros; apply preserves_ret].
    apply s3Client_send_preserves, documents_local.
  - destruct (isMongoDBStorage cfg); [apply preserves_ret|].
    destruct (truthy (path d)); [|apply preserves_ret].
    apply preserves_try_catch; [|intros; apply preserves_ret].
    by apply fs_unlink_preserves.
Qed.

Lemma deleteLoaded_Normal cfg d i w w' :
  id d = Some i →
  deleteLoaded cfg d w = (Normal (), w') →
  documents w' = filter (λ x, has_id i x = false) (documents w).
Proof.
  intros Hid. rewrite deleteLoaded_removeContent. unfold try_catch.
  destruct (bind _ _ w) as [[[]|e] w2] eqn:E; [|done].
  intros [= <-]. apply bind_Normal_inv in E as ([] & w1 & E1 & E2).
  pose proof (removeContent_documents cfg d w) as Hd. rewrite E1 in Hd.
  cbn in Hd. rewrite <-Hd. rewrite Hid in E2. unfold repo_delete in E2.
  destruct (repo_fault w1 _); [done|]. by simplify_eq.
Qed.

Lemma lookup_record_filter id_ i w w' :
  ObjectId_new id_ = Some i →
  documents w' = filter (λ x, has_id i x = false) (documents w) →
  lookup_record id_ w' = None.
Proof.
  intros Hi Hd. unfold lookup_record. rewrite Hi, Hd.
  apply find_has_id_filter.
Qed.

(** X16. A deletion that succeeds removes from the collection exactly
    the records of the id that the string denotes and keeps the others in
    their order; afterwards the id designates no record, and a second
    deletion of it throws "Document not found". *)
Theorem deleteDocument_removes cfg id_ w w' :
  deleteDocument cfg id_ w = (Normal (), w') →
  ∃ i, ObjectId_new id_ = Some i ∧
       documents w' = filter (λ d, has_id i d = false) (documents w) ∧
       lookup_record id_ w' = None ∧
       (deleteDocument cfg id_ w').1 =
         Throw (Error (js "Document not found")).
Proof.
  rewrite deleteDocument_deleteLoaded. intros H.
  apply bind_Normal_inv in H as (r & w1 & E1 & E2).
  rewrite getDocumentById_run in E1.
  destruct (ObjectId_new id_) as [i|] eqn:Hi;
    [|unfold throw in E2; by simplify_eq].
  exists i. split; [done|].
  assert (documents w1 = documents w ∧
          ∃ d, r = Some d ∧ id d = Some i) as (Hw1 & d & -> & Hid).
  { unfold throw in E2. destruct (repo_fault w _); [by simplify_eq|].
    destruct (find _ (documents w)) as [d|] eqn:Hd; [|by simplify_eq].
    apply find_has_id_Some in Hd as [? _]. simplify_eq.
    split; [done|]. by exists d. }
  pose proof (deleteLoaded_Normal cfg d i w1 w' Hid E2) as Hd.
  rewrite Hw1 in Hd. split; [done|].
  assert (lookup_record id_ w' = None) as Hgone
    by by eapply lookup_record_filter.
  split; [done|].
  unfold lookup_record in Hgone. rewrite Hi in Hgone. unfold bind.
  rewrite getDocumentById_run, Hi, Hgone.
  by destruct (repo_fault w' _).
Qed.

Lemma note_deleted_once :
  ∃ i, ObjectId_new first_id = Some i ∧
       documents (deleteDocument cfg_filesystem first_id note_saved).2 =
         filter (λ d, has_id i d = false) (documents note_saved) ∧
       lookup_record first_id
         (deleteDocument cfg_filesystem first_id note_saved).2 = None ∧
       (deleteDocument cfg_filesystem first_id
          (deleteDocument cfg_filesystem first_id note_saved).2).1 =
         Throw (Error (js "Document not found")).
Proof.
  apply (deleteDocument_removes cfg_filesystem first_id note_saved).
  vm_compute. reflexivity.
Defined.

Lemma deleteLoaded_preserves {X} (f : World → X) cfg d :
  (∀ e w, f (log e w) = f w) → (∀ ds w, f (set_documents ds w) = f w) →
  preserves f (removeContent cfg d) →
  preserves f (deleteLoaded cfg d).
Proof.
  intros Hlog Hds Hrm. rewrite deleteLoaded_removeContent.
  apply preserves_try_catch; [|intros; apply preserves_throw].
  apply preserves_bind; [done|]. intros _ w. unfold repo_delete.
  destruct (repo_fault w _); [apply Hlog|].
  destruct (id d); cbn [snd]; by rewrite ?Hds, Hlog.
Qed.

Lemma deleteDocument_preserves {X} (f : World → X) cfg id_ :
  (∀ e w, f (log e w) = f w) → (∀ ds w, f (set_documents ds w) = f w) →
  (∀ d, preserves f (removeContent cfg d)) →
  preserves f (deleteDocument cfg id_).
Proof.
  intros Hlog Hds Hrm. rewrite deleteDocument_deleteLoaded.
  apply preserves_bind; [by apply getDocumentById_preserves|].
  intros [d|]; [by apply deleteLoaded_preserves|apply preserves_throw].
Qed.

(** X17. Under EmbeddedBlob a deletion removes the record and nothing
    else: whatever locators the record carries, no local file and no
    object of the bucket is removed, and the only calls to the outside
    are the repository's. *)
Theorem deleteDocument_embedded_keeps_content cfg id_ :
  activeBackend cfg = EmbeddedBlob →
  preserves files (deleteDocument cfg id_) ∧
  preserves bucket (deleteDocument cfg id_) ∧
  ∀ w, Forall (λ e, ∃ c, e = RepoCall c) (events_of (deleteDocument cfg id_) w).
Proof.
  unfold activeBackend. intros HB.
  assert (isS3Storage cfg = false ∧ isMongoDBStorage cfg = true) as [E1 E2].
  { destruct (isS3Storage cfg); [done|].
    by destruct (isMongoDBStorage cfg). }
  assert (∀ d, removeContent cfg d = ret ()) as Hrm.
  { intros d. unfold removeContent. by rewrite E1, E2. }
  split_and!.
  - apply deleteDocument_preserves; try done.
    intros d. rewrite Hrm. apply preserves_ret.
  - apply deleteDocument_preserves; try done.
    intros d. rewrite Hrm. apply preserves_ret.
  - intros w. unfold events_of. rewrite deleteDocument_deleteLoaded.
    unfold bind. rewrite getDocumentById_run.
    assert (∀ l, Forall (λ e, ∃ c, e = RepoCall c) l →
              Forall (λ e, ∃ c, e = RepoCall c)
                     (drop (length (trace w)) (trace w ++ l))) as Hl
      by (intros l; by rewrite drop_trace).
    destruct (ObjectId_new id_) as [i|]; [|simpl; by rewrite drop_all].
    destruct (repo_fault w _);
      [simpl; apply Hl; repeat constructor; by eexists|].
    destruct (find _ _) as [d|];
      [|simpl; apply Hl; repeat constructor; by eexists].
    rewrite deleteLoaded_removeContent, Hrm.
    unfold try_catch, bind, ret, repo_delete. cbn [repo_fault log].
    destruct (repo_fault w (RepoDelete (id d))); [|destruct (id d)];
      simpl; rewrite <-app_assoc; apply Hl; simpl;
      repeat first [apply List.Forall_nil
                   |apply List.Forall_cons; [by eexists|]].
Qed.

Lemma note_file_survives_on_mongodb :
  files (deleteDocument cfg_mongodb first_id note_saved).2
  = files note_saved.
Proof.
  exact (proj1 (deleteDocument_embedded_keeps_content cfg_mongodb first_id
                  eq_refl) note_saved).
Defined.

(** The record of the note is gone all the same, so once the backend is
    MongoDB the file of a record made under the file system is left
    behind by its deletion. *)
Example note_record_deleted_on_mongodb :
  (deleteDocument cfg_mongodb first_id note_saved).1 = Normal () ∧
  documents (deleteDocument cfg_mongodb first_id note_saved).2 = [] ∧
  files (deleteDocument cfg_mongodb first_id note_saved).2 !! note_path
    = Some (bytes "hello").
Proof. split_and!; vm_compute; reflexivity. Qed.

(** X18. Outside EmbeddedBlob, the deletion of a record that has a
    non-empty [path] and no usable [s3Key], with its file in place,
    removes the file and then the record, and leaves the other files and
    the bucket alone. This holds under ObjectStorage as under
    Filesystem. *)
Theorem deleteDocument_unlinks_file cfg id_ i d p b w :
  activeBackend cfg ≠ EmbeddedBlob →
  ObjectId_new id_ = Some i →
  repo_fault w (RepoFindOneBy i) = None →
  find (λ x, has_id i x) (documents w) = Some d →
  truthy (s3Key d) = false →
  path d = Some p → p ≠ [] →
  files w !! p = Some b →
  repo_fault w (RepoDelete (Some i)) = None →
  ∃ w', deleteDocument cfg id_ w = (Normal (), w') ∧
        files w' = delete p (files w) ∧
        documents w' = filter (λ x, has_id i x = false) (documents w) ∧
        bucket w' = bucket w ∧
        events_of (deleteDocument cfg id_) w =
          [RepoCall (RepoFindOneBy i); FsUnlink p;
           RepoCall (RepoDelete (Some i))].
Proof.
  intros HB Hi Hf Hd Hs3 Hp Hne Hfile Hdel. unfold events_of.
  rewrite (deleteDocument_found _ _ _ _ _ Hi Hf Hd).
  apply find_has_id_Some in Hd as [Hid _].
  assert (isMongoDBStorage cfg = false) as EM.
  { unfold activeBackend in HB. destruct (isS3Storage cfg) eqn:E;
      [by apply isS3Storage_not_mongo|].
    by destruct (isMongoDBStorage cfg). }
  unfold deleteLoaded. rewrite Hs3, andb_false_r, EM, Hp, Hid.
  destruct p as [|c p]; [done|]. known_path c p. cbn [truthy].
  unfold try_catch, bind, fs_unlink, repo_delete, ret.
  cbn [files log]. rewrite Hfile. cbn [repo_fault log set_files].
  rewrite Hdel. eexists. split; [reflexivity|]. split_and!; try done.
  simpl. by rewrite <-!app_assoc, drop_trace.
Qed.

Lemma note_deleted_with_its_file :
  ∃ w', deleteDocument cfg_s3 first_id note_saved = (Normal (), w') ∧
        files w' = delete note_path (files note_saved) ∧
        documents w' =
          filter (λ x, has_id first_oid x = false) (documents note_saved) ∧
        bucket w' = bucket note_saved ∧
        events_of (deleteDocument cfg_s3 first_id) note_saved =
          [RepoCall (RepoFindOneBy first_oid); FsUnlink note_path;
           RepoCall (RepoDelete (Some first_oid))].
Proof.
  refine (deleteDocument_unlinks_file cfg_s3 first_id first_oid note_doc
            note_path (bytes "hello") note_saved _ _ _ _ _ _ _ _ _);
    first [vm_compute; reflexivity | by vm_compute].
Defined.

(** X19. A deletion is not atomic. When the content has been removed
    and the repository then rejects the deletion of the record,
    [deleteDocument] throws "Failed to delete document: " with the cause
    and the record stays, pointing at a file, or at an object, that is no
    longer there. *)
Theorem deleteDocument_record_left_behind cfg id_ i d w m :
  ObjectId_new id_ = Some i →
  repo_fault w (RepoFindOneBy i) = None →
  find (λ x, has_id i x) (documents w) = Some d →
  repo_fault w (RepoDelete (Some i)) = Some m →
  (∀ p, activeBackend cfg = Filesystem → path d = Some p → p ≠ [] →
     is_Some (files w !! p) →
     ∃ w', deleteDocument cfg id_ w =
             (Throw (Error (js "Failed to delete document: " ++ m)), w') ∧
           documents w' = documents w ∧ files w' !! p = None) ∧
  (∀ k, activeBackend cfg = ObjectStorage → s3Key d = Some k → k ≠ [] →
     s3_fault w (DeleteObjectCommand (S3_BUCKET_NAME cfg) k) = None →
     ∃ w', deleteDocument cfg id_ w =
             (Throw (Error (js "Failed to delete document: " ++ m)), w') ∧
           documents w' = documents w ∧
           bucket w' !! (S3_BUCKET_NAME cfg, k) = None).
Proof.
  intros Hi Hf Hd Hdel.
  rewrite (deleteDocument_found _ _ _ _ _ Hi Hf Hd).
  apply find_has_id_Some in Hd as [Hid _].
  unfold activeBackend, deleteLoaded. split.
  - intros p HB Hp Hne [b Hfile].
    destruct (isS3Storage cfg); [done|].
    destruct (isMongoDBStorage cfg); [done|].
    rewrite Hp, Hid. destruct p as [|c p]; [done|]. known_path c p.
    cbn [andb truthy].
    unfold try_catch, bind, fs_unlink, repo_delete, ret.
    cbn [files log]. rewrite Hfile. cbn [repo_fault log set_files].
    rewrite Hdel. eexists. split; [reflexivity|]. split; [done|].
    cbn. apply lookup_delete_eq.
  - intros k HB Hk Hne Hs3.
    destruct (isS3Storage cfg); [|by destruct (isMongoDBStorage cfg)].
    rewrite Hk, Hid. destruct k as [|c k]; [done|]. known_path c k.
    cbn [andb truthy].
    unfold try_catch, bind, deleteFile, try_catch, bind, s3Client_send,
      bucketName, repo_delete, ret.
    cbn [s3_fault log]. rewrite Hs3. cbn [repo_fault log set_bucket].
    rewrite Hdel. eexists. split; [reflexivity|]. split; [done|].
    cbn. apply lookup_delete_eq.
Qed.

Lemma note_record_left_behind :
  ∃ w', deleteDocument cfg_filesystem first_id note_undeletable =
          (Throw (Error (js "Failed to delete document: Database error")),
           w') ∧
        documents w' = documents note_undeletable ∧
        files w' !! note_path = None.
Proof.
  refine (proj1 (deleteDocument_record_left_behind cfg_filesystem first_id
                   first_oid note_doc note_undeletable
                   (js "Database error") _ _ _ _)
            note_path _ _ _ _);
    first [vm_compute; reflexivity | by vm_compute | by eexists].
Defined.

(** X20. [deleteDocument] throws either "Document not found", as it is,
    or an error whose message starts with "Failed to delete document: ";
    the error of a failed [fs.unlink] never reaches its caller. *)
Theorem deleteDocument_errors cfg id_ :
  throws_only
    (λ e, e = Error (js "Document not found") ∨
          message_from "Failed to delete document: " e)
    (deleteDocument cfg id_).
Proof.
  rewrite deleteDocument_deleteLoaded.
  intros w e w' H. apply bind_Throw_inv in H as [H|(r & w1 & H1 & H2)].
  - destruct (getDocumentById_never_throws id_ w) as (r & Hr).
    by rewrite H in Hr.
  - destruct r as [d|]; [right|left; unfold throw in H2; by simplify_eq].
    revert H2. apply throws_only_try_catch. intros e'.
    apply throws_only_throw, message_from_app.
Qed.

(** ** The collection as a whole *)

Lemma store_ok_filter i w w' :
  documents w' = filter (λ d, has_id i d = false) (documents w) →
  store_ok w → store_ok w'.
Proof.
  intros Hd [Hids Hnd]. unfold store_ok. rewrite Hd. split.
  - rewrite Forall_forall in Hids. apply Forall_forall.
    intros x [_ Hx]%list_elem_of_filter. by apply Hids.
  - eapply sublist_NoDup; [exact Hnd|].
    change (id <$> filter (λ d, has_id i d = false) (documents w)
            `sublist_of` id <$> documents w).
    apply fmap_sublist, sublist_filter.
Qed.

Lemma store_ok_same w w' :
  documents w' = documents w → store_ok w → store_ok w'.
Proof. unfold store_ok. by intros ->. Qed.

Lemma deleteDocument_documents cfg id_ w :
  documents (deleteDocument cfg id_ w).2 = documents w ∨
  ∃ i, documents (deleteDocument cfg id_ w).2 =
       filter (λ d, has_id i d = false) (documents w).
Proof.
  rewrite deleteDocument_deleteLoaded. unfold bind.
  pose proof (getDocumentById_preserves documents id_
                ltac:(done) w) as Hw.
  destruct (getDocumentById id_ w) as [[[d|]|e] w1]; cbn in Hw;
    [|by left..].
  rewrite deleteLoaded_removeContent. unfold try_catch, bind.
  pose proof (removeContent_documents cfg d w1) as Hr.
  destruct (removeContent cfg d w1) as [[[]|e] w2]; cbn in Hr;
    [|left; cbn; congruence].
  unfold repo_delete. destruct (repo_fault w2 _); [left; cbn; congruence|].
  destruct (id d) as [i|]; [|left; cbn; congruence].
  right. exists i. cbn. congruence.
Qed.

(** X21. The operations of the service keep the collection well formed:
    if every stored record has an id of twelve bytes and no two records
    share an id, the same holds after a creation, a deletion, a retrieval
    or a listing, whatever their outcome. *)
Theorem store_ok_kept utf8 cfg w :
  store_ok w →
  (∀ name_ path_ fileBuffer,
     store_ok (createDocument cfg name_ path_ fileBuffer w).2) ∧
  (∀ id_, store_ok (deleteDocument cfg id_ w).2) ∧
  (∀ id_, store_ok (getDocumentContent utf8 cfg id_ w).2) ∧
  store_ok (getAllDocuments w).2.
Proof.
  intros Hok. split_and!.
  - intros name_ path_ fileBuffer.
    destruct (createDocument _ _ _ _ w) as [[doc|e] w'] eqn:E; cbn [snd].
    + apply createDocument_Normal_inv in E
        as (d & w1 & _ & _ & _ & _ & _ & -> & Hfresh & Hd).
      destruct Hok as [Hids Hnd]. unfold store_ok. rewrite Hd. split.
      * apply Forall_app. split; [done|]. apply Forall_singleton.
        eexists. split; [reflexivity|]. apply length_bytes_be.
      * rewrite map_app. apply NoDup_app. split_and!; [done| |].
        -- intros x Hx [->|[]%elem_of_nil]%elem_of_cons.
           change (map id (documents w)) with (id <$> documents w) in Hx.
           apply list_elem_of_fmap in Hx as (y & Hy1 & Hy2).
           apply fresh_id_Forall in Hfresh.
           rewrite Forall_forall in Hfresh. by apply (Hfresh y).
        -- apply NoDup_singleton.
    + apply createDocument_Throw_documents in E.
      by eapply store_ok_same.
  - intros id_. destruct (deleteDocument_documents cfg id_ w) as [H|[i H]].
    + by eapply store_ok_same.
    + by eapply store_ok_filter.
  - intros id_. eapply store_ok_same; [|done].
    apply getDocumentContent_preserves, documents_local.
  - unfold getAllDocuments, bind, repo_find.
    by destruct (repo_fault w _).
Qed.

Lemma store_ok_after_upload :
  store_ok (createDocument cfg_s3 (js "b.txt") None (Some (bytes "x"))
              s3_saved).2.
Proof.
  refine (proj1 (store_ok_kept utf8_decode cfg_s3 s3_saved _)
            (js "b.txt") None (Some (bytes "x"))).
  split; [|vm_compute]; repeat constructor.
  - by eexists.
  - by intros []%elem_of_nil.
Defined.

(** X22. After a successful creation, a listing that the repository
    answers returns one record more than were stored before: the new
    record and every earlier one. A listing that the repository rejects
    throws the repository's error as it is, and a listing changes
    nothing. *)
Theorem listing_after_creation cfg name_ path_ fileBuffer w doc w' :
  createDocument cfg name_ path_ fileBuffer w = (Normal doc, w') →
  (repo_fault w' (RepoFind (mkFindManyOptions (Some DESC))) = None →
   ∃ l, (getAllDocuments w').1 = Normal l ∧
        doc ∈ l ∧ (∀ d, d ∈ documents w → d ∈ l) ∧
        length l = S (length (documents w))) ∧
  (∀ m, repo_fault w' (RepoFind (mkFindManyOptions (Some DESC))) = Some m →
        (getAllDocuments w').1 = Throw (Error m)) ∧
  documents (getAllDocuments w').2 = documents w'.
Proof.
  intros Hc. apply createDocument_Normal_inv in Hc
    as (d & w1 & _ & _ & _ & _ & _ & _ & _ & Hd).
  unfold getAllDocuments, bind, repo_find, ret. split_and!.
  - intros ->. eexists. split; [reflexivity|].
    unfold apply_order. cbn [order_createdAt].
    pose proof (merge_sort_Permutation newest_first (documents w')) as Hp.
    split_and!.
    + rewrite Hp, Hd. set_solver.
    + intros x Hx. rewrite Hp, Hd. set_solver.
    + rewrite Hp, Hd, length_app. simpl. lia.
  - by intros m ->.
  - by destruct (repo_fault w' _).
Qed.

Lemma listing_after_s3_upload :
  ∃ l, (getAllDocuments s3_saved).1 = Normal l ∧
       s3_doc ∈ l ∧ (∀ d, d ∈ documents world0 → d ∈ l) ∧
       length l = S (length (documents world0)).
Proof.
  exact (proj1 (listing_after_creation cfg_s3 (js "a b.txt") None
                  (Some (bytes "hello")) world0 s3_doc s3_saved eq_refl)
           eq_refl).
Defined.

(** ** Configuration *)


(** The value "S3" is not "s3". *)
Example upper_case_S3_is_filesystem :
  let cfg := BaseConfig_of_env (env_of "S3") in
  activeBackend cfg = Filesystem ∧ storage_flags cfg = (false, false, false).
Proof. split; reflexivity. Qed.

(** ** Sanitisation *)

Lemma allowed_not_underscore c : allowed c = true → c ≠ 95.
Proof. by intros H ->. Qed.

Lemma sanitize_app a b : sanitize (a ++ b) = sanitize a ++ sanitize b.
Proof. unfold sanitize. apply map_app. Qed.

(** X24. Sanitising a name twice is sanitising it once; a name is left
    as it is exactly when each of its code units is in the class or is
    '_'; sanitisation works unit by unit, so it distributes over
    concatenation; and [generateS3Key] tells two names apart only as
    far as their sanitised forms differ. *)
Theorem sanitize_fixpoints name_ :
  sanitize (sanitize name_) = sanitize name_ ∧
  (sanitize name_ = name_ ↔
     Forall (λ c, allowed c = true ∨ c = 95) name_) ∧
  (∀ other, sanitize (name_ ++ other) = sanitize name_ ++ sanitize other) ∧
  (∀ other w, sanitize other = sanitize name_ →
     generateS3Key other w = generateS3Key name_ w).
Proof.
  split_and!.
  - induction name_ as [|c l IH]; [done|]. cbn. rewrite <-IH at 2. cbn.
    f_equal. destruct (allowed c) eqn:E; [by rewrite E|done].
  - split.
    + intros <-. apply sanitize_clean.
    + induction 1 as [|c l [Hc| ->] _ IH]; [done| |]; cbn; f_equal;
        try done. by rewrite Hc.
  - apply sanitize_app.
  - intros other w H. rewrite !generateS3Key_run. unfold s3Key_at.
    by rewrite H.
Qed.

Example sanitize_merges_names :
  generateS3Key (js "a b.txt") world0 = generateS3Key (js "a_b.txt") world0.
Proof. reflexivity. Qed.

(** ** The controller *)

(** What the controller hands to [createDocument]. *)
Lemma uploadDocument_createDocument cfg file :
  DocumentController.uploadDocument cfg (Request.mk (Some file)) =
  bind (createDocument cfg (Multer.originalname file)
          (match activeBackend cfg with
           | Filesystem => Multer.path file
           | _ => None
           end)
          (match activeBackend cfg with
           | Filesystem => None
           | _ => Multer.buffer file
           end))
       new_UploadDocumentResponse.
Proof.
  unfold DocumentController.uploadDocument, activeBackend. cbn.
  destruct (isS3Storage cfg); [done|]. by destruct (isMongoDBStorage cfg).
Qed.

(** X25. The controller refuses a request without file with "No file
    uploaded" and does nothing. Of a file it hands to [createDocument]
    the name and, under the file system, the path only, otherwise the
    buffer only. So a file kept on disk, which has no buffer, cannot be
    uploaded under ObjectStorage or EmbeddedBlob, and a file kept in
    memory, which has no path, cannot be uploaded under Filesystem: both
    are refused before anything is read, uploaded or saved. *)
Theorem uploadDocument_input cfg w :
  DocumentController.uploadDocument cfg (Request.mk None) w =
    (Throw (Error (js "No file uploaded")), w) ∧
  (∀ file,
     DocumentController.uploadDocument cfg (Request.mk (Some file)) =
     bind (createDocument cfg (Multer.originalname file)
             (match activeBackend cfg with
              | Filesystem => Multer.path file
              | _ => None
              end)
             (match activeBackend cfg with
              | Filesystem => None
              | _ => Multer.buffer file
              end))
          new_UploadDocumentResponse) ∧
  (∀ file, Multer.buffer file = None →
     activeBackend cfg = ObjectStorage →
     DocumentController.uploadDocument cfg (Request.mk (Some file)) w =
     (Throw (Error (js "Either path or fileBuffer must be provided for S3 storage")),
      w)) ∧
  (∀ file, Multer.buffer file = None →
     activeBackend cfg = EmbeddedBlob →
     DocumentController.uploadDocument cfg (Request.mk (Some file)) w =
     (Throw (Error (js "Either path or fileBuffer must be provided for MongoDB storage")),
      w)) ∧
  (∀ file, truthy (Multer.path file) = false →
     activeBackend cfg = Filesystem →
     DocumentController.uploadDocument cfg (Request.mk (Some file)) w =
     (Throw (Error (js "Path must be provided for filesystem storage")),
      w)).
Proof.
  split_and!.
  - reflexivity.
  - apply uploadDocument_createDocument.
  - intros file Hb HB. rewrite uploadDocument_createDocument, HB, Hb.
    unfold bind, createDocument, bind. unfold activeBackend in HB.
    destruct (isS3Storage cfg); [done|].
    by destruct (isMongoDBStorage cfg).
  - intros file Hb HB. rewrite uploadDocument_createDocument, HB, Hb.
    unfold bind, createDocument, bind. unfold activeBackend in HB.
    destruct (isS3Storage cfg); [done|].
    by destruct (isMongoDBStorage cfg).
  - intros file Hp HB. rewrite uploadDocument_createDocument, HB.
    unfold bind. rewrite createDocument_filesystem by done.
    by rewrite Hp.
Qed.

(** The upload that [index.ts] sets up, on disk, reaches the controller
    without buffer. *)
Example disk_upload_on_s3 :
  DocumentController.uploadDocument cfg_s3 (Request.mk (Some disk_file))
                                    note_world =
  (Throw (Error (js "Either path or fileBuffer must be provided for S3 storage")),
   note_world).
Proof. reflexivity. Qed.

(** The locator of a draft. *)
Lemma draft_path cfg name_ path_ fileBuffer :
  returns_only
    (λ d, match activeBackend cfg with
          | Filesystem => path d = path_ ∧ truthy path_ = true
          | _ => path d = None
          end)
    (draft cfg name_ path_ fileBuffer).
Proof.
  unfold draft, activeBackend.
  destruct (isS3Storage cfg); [|destruct (isMongoDBStorage cfg)].
  - apply returns_only_bind. intros b. apply returns_only_bind. intros k.
    apply returns_only_bind. intros _. by apply returns_only_ret.
  - destruct fileBuffer; [by apply returns_only_ret|].
    destruct (truthy path_); [|apply returns_only_throw].
    apply returns_only_bind. intros b. by apply returns_only_ret.
  - destruct path_ as [[|c p]|]; cbn [truthy negb];
      try apply returns_only_throw.
    by apply returns_only_ret.
Qed.

(** X26. The response to a successful upload carries the message "File
    uploaded successfully", the original name of the file, the time of
    the save as both dates, and, as [path], the path of the file under
    the file system and nothing under the other backends. Its id has
    twenty-four code units and designates the record that the upload
    added to the collection. *)
Theorem uploadDocument_response cfg file w r w' :
  DocumentController.uploadDocument cfg (Request.mk (Some file)) w
    = (Normal r, w') →
  UploadDocumentResponse.message r = js "File uploaded successfully" ∧
  UploadDocumentResponse.name r = Some (Multer.originalname file) ∧
  UploadDocumentResponse.path r =
    match activeBackend cfg with
    | Filesystem => Multer.path file
    | _ => None
    end ∧
  UploadDocumentResponse.createdAt r = Some (now w) ∧
  UploadDocumentResponse.updatedAt r = Some (now w) ∧
  length (UploadDocumentResponse.id r) = 24%nat ∧
  ∃ doc, lookup_record (UploadDocumentResponse.id r) w' = Some doc ∧
         documents w' = documents w ++ [doc] ∧
         name doc = UploadDocumentResponse.name r.
Proof.
  rewrite uploadDocument_createDocument. intros H.
  apply bind_Normal_inv in H as (doc & w1 & Hc & Hr).
  apply createDocument_Normal_inv in Hc
    as (d & w0 & Hdraft & Hid & Hname & _ & _ & -> & Hfresh & Hdocs).
  pose proof (draft_path _ _ _ _ _ _ _ Hdraft) as Hpath.
  unfold new_UploadDocumentResponse, bind, id_toString, ret in Hr.
  cbn [id name path createdAt updatedAt set_updatedAt set_createdAt set_id]
    in Hr.
  injection Hr as <- <-.
  cbn [UploadDocumentResponse.message UploadDocumentResponse.name
       UploadDocumentResponse.path UploadDocumentResponse.createdAt
       UploadDocumentResponse.updatedAt UploadDocumentResponse.id
       id name path createdAt updatedAt set_updatedAt set_createdAt set_id].
  assert (length (ObjectId_generate (oid_counter w0)) = 12%nat) as Hlen
    by apply length_bytes_be.
  split; [done|]. split; [done|]. split; [|split; [done|]].
  2: split; [done|]. 2: split.
  - destruct (activeBackend cfg).
    + destruct Hpath as [-> Ht]. unfold or_undefined. by rewrite Ht.
    + by rewrite Hpath.
    + by rewrite Hpath.
  - by rewrite length_ObjectId_toString, Hlen.
  - eexists. split; [|split; [exact Hdocs|done]].
    unfold lookup_record. rewrite ObjectId_new_toString by done.
    rewrite Hdocs. by apply find_has_id_app.
Qed.

Lemma disk_upload_response :
  let r := result (DocumentController.uploadDocument cfg_filesystem
                     (Request.mk (Some disk_file)) note_world)
                  (UploadDocumentResponse.mk [] [] None None None None) in
  UploadDocumentResponse.message r = js "File uploaded successfully" ∧
  UploadDocumentResponse.name r = Some (js "note.txt") ∧
  UploadDocumentResponse.path r = Some note_path ∧
  UploadDocumentResponse.id r = js "507f1f77bcf86cd799439011".
Proof.
  pose proof (uploadDocument_response cfg_filesystem disk_file note_world
                _ _ eq_refl) as (H1 & H2 & H3 & _).
  split_and!; [exact H1|exact H2|exact H3|reflexivity].
Defined.

(** The record of a creation and what its retrieval reads, for the
    inputs that the controller passes. *)
Lemma created_by_controller utf8 cfg name_ file B w doc w' :
  uploads cfg w file B →
  createDocument cfg name_
    (match activeBackend cfg with
     | Filesystem => Multer.path file
     | _ => None
     end)
    (match activeBackend cfg with
     | Filesystem => None
     | _ => Multer.buffer file
     end) w = (Normal doc, w') →
  reads_available w' →
  ∃ i, id doc = Some i ∧ length i = 12%nat ∧
       (getDocumentContent utf8 cfg (ObjectId_toString i) w').1
       = Normal (doc, utf8 B).
Proof.
  unfold uploads. intros Hu Hc [Hs3 Hrepo].
  destruct (activeBackend cfg) eqn:HB.
  - destruct Hu as (p & Hp & Hf). rewrite Hp in Hc.
    rewrite createDocument_filesystem in Hc by done.
    destruct p as [|c p]; [done|]. cbn [truthy] in Hc. known_path c p.
    apply repo_save_new_found in Hc
      as (i & Hi & Hlen & Hfind & Hd & Hfiles & _); [|done].
    exists i. split; [done|]. split; [done|].
    erewrite getDocumentContent_found; eauto using ObjectId_new_toString.
    eapply readContent_filesystem; eauto; [by rewrite Hd|done|].
    simpl. by rewrite Hfiles.
  - rewrite Hu in Hc. rewrite createDocument_embedded_buffer in Hc by done.
    apply repo_save_new_found in Hc
      as (i & Hi & Hlen & Hfind & Hd & _); [|done].
    exists i. split; [done|]. split; [done|].
    erewrite getDocumentContent_found; eauto using ObjectId_new_toString.
    eapply readContent_embedded; eauto. by rewrite Hd.
  - rewrite Hu in Hc. rewrite createDocument_object_buffer in Hc by done.
    apply store_in_s3_ok in Hc as [_ Hc].
    apply repo_save_new_found in Hc
      as (i & Hi & Hlen & Hfind & Hd & _ & Hbucket & _); [|done].
    exists i. split; [done|]. split; [done|].
    erewrite getDocumentContent_found; eauto using ObjectId_new_toString.
    eapply readContent_object; eauto; [by rewrite Hd|done|].
    simpl. rewrite Hbucket. simpl. apply lookup_insert_eq.
Qed.

(** X27. Through the controller, an upload followed by the retrieval of
    the id that the upload answered returns the same id, the original
    name, the same [path] as the upload's answer, and the uploaded bytes
    decoded as UTF-8, provided the retrieval's remote calls are not
    rejected. *)
Theorem upload_then_content utf8 cfg file B w r w' :
  uploads cfg w file B →
  DocumentController.uploadDocument cfg (Request.mk (Some file)) w
    = (Normal r, w') →
  reads_available w' →
  (DocumentController.getDocumentContent utf8 cfg
     (UploadDocumentResponse.id r) w').1 =
  Normal (GetDocumentContentResponse.mk
            (UploadDocumentResponse.id r)
            (Some (Multer.originalname file))
            (UploadDocumentResponse.path r)
            (utf8 B)).
Proof.
  intros Hu Hup Hreads. rewrite uploadDocument_createDocument in Hup.
  apply bind_Normal_inv in Hup as (doc & w1 & Hc & Hr).
  destruct (created_by_controller utf8 _ _ _ _ _ _ _ Hu Hc) as
    (i & Hi & Hlen & Hget).
  { unfold new_UploadDocumentResponse, bind, id_toString in Hr.
    destruct (id doc); unfold ret, throw in Hr; by simplify_eq. }
  apply createDocument_Normal_inv in Hc
    as (d & w0 & _ & _ & Hname & _ & _ & Hdoc & _).
  unfold new_UploadDocumentResponse, bind, id_toString, ret in Hr.
  rewrite Hi in Hr. injection Hr as <- <-.
  cbn [UploadDocumentResponse.id UploadDocumentResponse.path].
  unfold DocumentController.getDocumentContent, bind.
  destruct (getDocumentContent utf8 cfg _ w1) as [[[doc' content]|e] w2];
    cbn [fst] in Hget; [|done].
  injection Hget as -> ->.
  unfold new_GetDocumentContentResponse, bind, id_toString, ret.
  rewrite Hi. cbn [fst]. do 2 f_equal.
  rewrite Hdoc. cbn [name set_updatedAt set_createdAt set_id]. done.
Qed.

Lemma disk_upload_then_content :
  let up := DocumentController.uploadDocument cfg_filesystem
              (Request.mk (Some disk_file)) note_world in
  let r := result up (UploadDocumentResponse.mk [] [] None None None None) in
  (DocumentController.getDocumentContent utf8_decode cfg_filesystem
     (UploadDocumentResponse.id r) up.2).1 =
  Normal (GetDocumentContentResponse.mk
            (js "507f1f77bcf86cd799439011") (Some (js "note.txt"))
            (Some note_path) (js "hello")).
Proof.
  refine (upload_then_content utf8_decode cfg_filesystem disk_file
            (bytes "hello") note_world _ _ _ eq_refl _).
  - exists note_path. by split.
  - by split.
Defined.

Example memory_upload_then_content_on_s3 :
  let up := DocumentController.uploadDocument cfg_s3
              (Request.mk (Some memory_file)) world0 in
  let r := result up (UploadDocumentResponse.mk [] [] None None None None) in
  (DocumentController.getDocumentContent utf8_decode cfg_s3
     (UploadDocumentResponse.id r) up.2).1 =
  Normal (GetDocumentContentResponse.mk
            (js "507f1f77bcf86cd799439011") (Some (js "note.txt"))
            None (js "hello")).
Proof. vm_compute. reflexivity. Qed.

(** *** The listing *)




